(** * Carry-forward: the line-carry transformation of [src/main.ts]

    A shallow embedding of [genID], [blockIDRegex], [validateRegex] and
    [copyForwardLines], together with the part of the ECMAScript string
    library they call ([String.prototype.slice], [replace], [match]).

    A JavaScript string is a sequence of UTF-16 code units; a code unit is
    a number [N].  The host application (the editor, the link formatter,
    the regular-expression compiler applied to the user's pattern, the
    clipboard and [Math.random]) is a record [Host] that every definition
    of the plug-in takes as a parameter. *)

From Stdlib Require Import String Ascii.
From Stdlib Require Import List Bool Arith NArith ZArith Lia.
Import ListNotations.

(* ================================================================= *)
(** ** JavaScript strings *)

Module JS.

Definition jsstring := list N.

(** The code units of an ASCII literal. *)
Definition js (s : string) : jsstring :=
  map N_of_ascii (list_ascii_of_string s).

Definition NL : N := 10.
Definition TAB : N := 9.
Definition CR : N := 13.
Definition SPACE : N := 32.
Definition BANG : N := 33.
Definition QUOTE : N := 34.
Definition HASH : N := 35.
Definition DOLLAR : N := 36.
Definition AMP : N := 38.
Definition TICK : N := 39.
Definition HYPHEN : N := 45.
Definition LT : N := 60.
Definition GT : N := 62.
Definition BACKSLASH : N := 92.
Definition CARET : N := 94.
Definition BACKTICK : N := 96.

Fixpoint eqb (a b : jsstring) : bool :=
  match a, b with
  | [], [] => true
  | x :: a', y :: b' => N.eqb x y && eqb a' b'
  | _, _ => false
  end.

(** [\s]: WhiteSpace and LineTerminator code points of ECMAScript. *)
Definition isWhiteSpace (c : N) : bool :=
  (N.eqb c 9 || N.eqb c 10 || N.eqb c 11 || N.eqb c 12 || N.eqb c 13
   || N.eqb c 32 || N.eqb c 160 || N.eqb c 5760
   || (N.leb 8192 c && N.leb c 8202)
   || N.eqb c 8232 || N.eqb c 8233 || N.eqb c 8239 || N.eqb c 8287
   || N.eqb c 12288 || N.eqb c 65279)%bool.

(** [[a-zA-Z0-9-]] *)
Definition isBlockIDChar (c : N) : bool :=
  ((N.leb 97 c && N.leb c 122) || (N.leb 65 c && N.leb c 90)
   || (N.leb 48 c && N.leb c 57) || N.eqb c HYPHEN)%bool.

Definition isDigit (c : N) : bool := (N.leb 48 c && N.leb c 57)%bool.

Definition digitValue (c : N) : nat := N.to_nat (c - 48).

Fixpoint takeWhile (p : N -> bool) (s : jsstring) : jsstring :=
  match s with
  | [] => []
  | c :: s' => if p c then c :: takeWhile p s' else []
  end.

(** [String.prototype.slice(start, end)]: a negative index counts from the
    end of the string, both indices are clamped to the string. *)
Definition slice (s : jsstring) (start end_ : Z) : jsstring :=
  let len := Z.of_nat (length s) in
  let from := if (start <? 0)%Z then Z.max (len + start) 0 else Z.min start len in
  let to := if (end_ <? 0)%Z then Z.max (len + end_) 0 else Z.min end_ len in
  firstn (Z.to_nat (Z.max (to - from) 0)) (skipn (Z.to_nat from) s).

(** [Array.prototype.join] *)
Fixpoint join (sep : jsstring) (l : list jsstring) : jsstring :=
  match l with
  | [] => []
  | [x] => x
  | x :: l' => x ++ sep ++ join sep l'
  end.

Fixpoint startsWith (p s : jsstring) : bool :=
  match p, s with
  | [], _ => true
  | a :: p', b :: s' => N.eqb a b && startsWith p' s'
  | _ :: _, [] => false
  end.

(** [StringIndexOf(s, pat, 0)] *)
Fixpoint indexOf (pat s : jsstring) : option nat :=
  match s with
  | [] => if startsWith pat [] then Some 0 else None
  | _ :: s' => if startsWith pat s then Some 0 else option_map S (indexOf pat s')
  end.

(** The result of [RegExp.prototype.exec]: where the match starts, the
    matched text, the capture groups 1..m ([None] is [undefined]) and the
    [groups] object of the named captures ([None] when the pattern has no
    named group). *)
Record MatchResult := {
  index : nat;
  matched : jsstring;
  captures : list (option jsstring);
  groups : option (list (jsstring * option jsstring))
}.

(** A compiled regular expression without the [g] and [y] flags, seen
    through [exec]: the leftmost match in the subject, if any. *)
Definition RegExp := jsstring -> option MatchResult.

Definition plainMatch (i : nat) (m : jsstring) : MatchResult :=
  {| index := i; matched := m; captures := []; groups := None |}.

(** The search loop of a regular expression: the pattern is tried at every
    position from left to right; [matchAt prev rest] is the pattern tried
    at one position, [prev] being the code unit before it, if any. *)
Fixpoint searchFrom (matchAt : option N -> jsstring -> option jsstring)
    (prev : option N) (i : nat) (s : jsstring) {struct s} : option MatchResult :=
  match matchAt prev s with
  | Some m => Some (plainMatch i m)
  | None =>
      match s with
      | [] => None
      | c :: s' => searchFrom matchAt (Some c) (S i) s'
      end
  end.

Definition search (matchAt : option N -> jsstring -> option jsstring) : RegExp :=
  searchFrom matchAt None 0.

Fixpoint assoc (k : jsstring) (l : list (jsstring * option jsstring))
    : option (option jsstring) :=
  match l with
  | [] => None
  | (k', v) :: l' => if eqb k k' then Some v else assoc k l'
  end.

Section GetSubstitution.
Variables (matched_ str : jsstring) (position : nat).
Variable captures_ : list (option jsstring).
Variable namedCaptures : option (list (jsstring * option jsstring)).

Definition captureText (c : option (option jsstring)) : jsstring :=
  match c with
  | Some (Some t) => t
  | _ => []
  end.

(** One round of the loop of GetSubstitution: [templateRemainder] is not
    empty; the result is the length of [ref] and [refReplacement]. *)
Definition substRef (templateRemainder : jsstring) : nat * jsstring :=
  match templateRemainder with
  | [] => (0, [])
  | c :: rest =>
      if negb (N.eqb c DOLLAR) then (1, [c]) else
      match rest with
      | [] => (1, [c])
      | d :: rest' =>
          if N.eqb d DOLLAR then (2, [DOLLAR])
          else if N.eqb d BACKTICK then (2, firstn position str)
          else if N.eqb d AMP then (2, matched_)
          else if N.eqb d TICK then
            (2, skipn (Nat.min (position + length matched_) (length str)) str)
          else if isDigit d then
            let captureLen := length captures_ in
            let two :=
              match rest' with
              | d' :: _ => if isDigit d' then Some d' else None
              | [] => None
              end in
            let '(digitCount, idx) :=
              match two with
              | Some d' =>
                  let idx2 := 10 * digitValue d + digitValue d' in
                  if captureLen <? idx2 then (1, digitValue d) else (2, idx2)
              | None => (1, digitValue d)
              end in
            if (1 <=? idx) && (idx <=? captureLen)
            then (1 + digitCount, captureText (nth_error captures_ (idx - 1)))
            else (1 + digitCount, firstn (1 + digitCount) templateRemainder)
          else if N.eqb d LT then
            match indexOf [GT] templateRemainder, namedCaptures with
            | Some gtPos, Some named =>
                let groupName := firstn (gtPos - 2) (skipn 2 templateRemainder) in
                (gtPos + 1, captureText (assoc groupName named))
            | _, _ => (2, [DOLLAR; LT])
            end
          else (1, [c])
      end
  end.

(** The loop itself; [skip] counts the code units of the current [ref]
    that are still to be stepped over. *)
Fixpoint substituteFrom (skip : nat) (templateRemainder : jsstring) : jsstring :=
  match templateRemainder with
  | [] => []
  | _ :: rest =>
      match skip with
      | S k => substituteFrom k rest
      | O =>
          let '(refLength, refReplacement) := substRef templateRemainder in
          refReplacement ++ substituteFrom (refLength - 1) rest
      end
  end.

Definition GetSubstitution (replacementTemplate : jsstring) : jsstring :=
  substituteFrom 0 replacementTemplate.
End GetSubstitution.

(** [String.prototype.replace(searchValue, replaceValue)] with a string
    pattern: the first occurrence only. *)
Definition replaceString (s searchString replaceValue : jsstring) : jsstring :=
  match indexOf searchString s with
  | None => s
  | Some pos =>
      firstn pos s
      ++ GetSubstitution searchString s pos [] None replaceValue
      ++ skipn (pos + length searchString) s
  end.

(** [String.prototype.replace(regexp, replaceValue)] with a regular
    expression that has no [g] flag: the first match only. *)
Definition replaceRegExp (s : jsstring) (re : RegExp) (replaceValue : jsstring)
    : jsstring :=
  match re s with
  | None => s
  | Some r =>
      let position := Nat.min (index r) (length s) in
      firstn position s
      ++ GetSubstitution (matched r) s position (captures r) (groups r) replaceValue
      ++ skipn (position + length (matched r)) s
  end.

(** [String.prototype.match(regexp)], the matched text of element 0. *)
Definition matchRegExp (s : jsstring) (re : RegExp) : option jsstring :=
  option_map matched (re s).

(** [s.replace(/\\X/g, r)] for a letter [X] and a one-unit replacement [r]
    free of [$]: every backslash-X pair, scanned from the left. *)
Fixpoint replaceEscapes (x r : N) (s : jsstring) : jsstring :=
  match s with
  | a :: ((b :: s') as t) =>
      if N.eqb a BACKSLASH && N.eqb b x then r :: replaceEscapes x r s'
      else a :: replaceEscapes x r t
  | _ => s
  end.

(** [/^\s*/] *)
Definition re_leadingWhitespace : RegExp :=
  search (fun prev rest =>
    match prev with
    | None => Some (takeWhile isWhiteSpace rest)
    | Some _ => None
    end).

(** [/^\s*$/] *)
Definition re_blank : RegExp :=
  search (fun prev rest =>
    match prev with
    | None => if forallb isWhiteSpace rest then Some rest else None
    | Some _ => None
    end).

(** [/\s*?$/] (and [/\s*$/]: both match, at a position, exactly when the
    rest of the subject is white space, and then match all of it). *)
Definition re_trailingWhitespace : RegExp :=
  search (fun _ rest => if forallb isWhiteSpace rest then Some rest else None).

(** A replacement text without [$] (no replacement pattern in it). *)
Definition noDollar (s : jsstring) : bool :=
  forallb (fun c => negb (N.eqb c DOLLAR)) s.

(** The text before the trailing white space of a line (used to state
    what [line.replace(/\s*?$/, t)] returns). *)
Fixpoint trimEnd (s : jsstring) : jsstring :=
  match s with
  | [] => []
  | c :: s' => if forallb isWhiteSpace s then [] else c :: trimEnd s'
  end.

End JS.

Import JS.

(* ================================================================= *)
(** ** The host application *)

(** What the plug-in asks of its environment.
    - [generateMarkdownLink] is [view.app.fileManager.generateMarkdownLink].
    - [RegExp_new p] is [new RegExp(p, "u")]: the compiled expression, or
      the text of the error it throws (as [`${e}`] prints it).
    - [random k] is the value of
      [Math.floor(Math.random() * characters.length)] at the [k]-th call.
    - [readText k] is what the [k]-th [navigator.clipboard.readText()]
      resolves to.  The reads are taken to resolve: a read that rejects
      makes the command reject inside its loop, before the clipboard write
      and the transaction, and is not part of this model.
    - [writeTextResolves] tells whether the promise of
      [navigator.clipboard.writeText] is fulfilled. *)
Record Host := {
  TFile : Type;
  generateMarkdownLink : TFile -> jsstring -> jsstring -> jsstring -> jsstring;
  RegExp_new : jsstring -> jsstring + RegExp;
  random : nat -> nat;
  readText : nat -> jsstring;
  writeTextResolves : bool
}.

Record EditorPosition := { line : nat; ch : nat }.

(** The editor: [getLine], [getCursor("from")], [getCursor("to")] and
    [getSelection()]. *)
Record Editor := {
  getLine : nat -> jsstring;
  cursorFrom : EditorPosition;
  cursorTo : EditorPosition;
  getSelection : jsstring
}.

(** An editor over a list of lines. *)
Definition editorOf (lines : list jsstring) (from to : EditorPosition)
    (selection : jsstring) : Editor :=
  {| getLine := fun n => nth n lines [];
     cursorFrom := from; cursorTo := to; getSelection := selection |}.

(* ================================================================= *)
(** ** The plug-in *)

Record CarryForwardPluginSettings := {
  linkText : jsstring;
  copiedLinkText : jsstring;
  lineFormatFrom : jsstring;
  lineFormatTo : jsstring;
  removeLeadingWhitespace : bool
}.

Definition DEFAULT_SETTINGS : CarryForwardPluginSettings :=
  {| linkText := js "";
     copiedLinkText := js "(see {{LINK}})";
     lineFormatFrom := js "\s*$";
     lineFormatTo := js " (see {{LINK}})";
     removeLeadingWhitespace := true |}.

Inductive CopyTypes := SeparateLines | CombinedLines | LinkOnly | LinkOnlyEmbed.

Inductive Mode :=
  LinkTextFromSettings | LinkTextFromSelection | LinkTextFromClipboard.

Definition isLinkOnly (copy : CopyTypes) : bool :=
  match copy with
  | LinkOnly | LinkOnlyEmbed => true
  | _ => false
  end.

Definition isSeparateLines (copy : CopyTypes) : bool :=
  match copy with
  | SeparateLines => true
  | _ => false
  end.

Definition isEmbed (copy : CopyTypes) : bool :=
  match copy with
  | LinkOnlyEmbed => true
  | _ => false
  end.

(** [blockIDRegex = /(?<=[\s^])\^[a-zA-Z0-9-]+$/u].  Inside the class
    [[\s^]] the caret is the caret character: the look-behind asks for one
    code unit before the match, white space or [^]. *)
Definition blockIDAt (prev : option N) (rest : jsstring) : option jsstring :=
  match prev with
  | Some p =>
      if isWhiteSpace p || N.eqb p CARET then
        match rest with
        | c :: id =>
            if N.eqb c CARET && negb (Nat.eqb (length id) 0)
               && forallb isBlockIDChar id
            then Some rest else None
        | [] => None
        end
      else None
  | None => None
  end.

Definition blockIDRegex : RegExp := search blockIDAt.

(** The alphabet of [genID]: [a-z], [-] and [0-9]. *)
Definition isTokenChar (c : N) : bool :=
  ((N.leb 97 c && N.leb c 122) || (N.leb 48 c && N.leb c 57) || N.eqb c HYPHEN)%bool.

(** What the transform leaves behind: the calls it has made to
    [Math.random] and to [clipboard.readText]. *)
Record World := { randomCalls : nat; clipboardReads : nat }.

Inductive Result (A : Type) :=
| Ok (a : A)
| Throw (e : jsstring).
Arguments Ok {A} a.
Arguments Throw {A} e.

(** State and exceptions. *)
Definition M (A : Type) := World -> Result A * World.

Definition ret {A} (a : A) : M A := fun w => (Ok a, w).

Definition bind {A B} (c : M A) (k : A -> M B) : M B :=
  fun w =>
    match c w with
    | (Ok a, w') => k a w'
    | (Throw e, w') => (Throw e, w')
    end.

Notation "x <- c ;; k" := (bind c (fun x => k))
  (at level 61, c at next level, right associativity).
Notation "' pat <- c ;; k" := (bind c (fun x => match x with pat => k end))
  (at level 61, pat pattern, c at next level, right associativity).

(** The editor effects of one command, in the order they are issued. *)
Inductive Effect :=
| ENotice (message : jsstring) (duration : option N)
| EClipboardWrite (text : jsstring)
| ETransaction (from to : EditorPosition) (text : jsstring)
    (selectionFrom selectionTo : EditorPosition).

Record RegexValidation := { valid : bool; string_ : jsstring }.

Section Plugin.
Variable host : Host.

Definition drawIndex : M nat :=
  fun w => (Ok (random host (randomCalls w)),
            {| randomCalls := S (randomCalls w);
               clipboardReads := clipboardReads w |}).

Definition clipboardReadText : M jsstring :=
  fun w => (Ok (readText host (clipboardReads w)),
            {| randomCalls := randomCalls w;
               clipboardReads := S (clipboardReads w) |}).

Definition newRegExp (pattern : jsstring) : M RegExp :=
  fun w =>
    match RegExp_new host pattern with
    | inr re => (Ok re, w)
    | inl e => (Throw e, w)
    end.

Definition characters : jsstring := js "abcdefghijklmnopqrstuvwxyz-0123456789".

(** [id += characters[k]]: an index outside the string reads
    [undefined], which [+=] appends as text. *)
Definition charactersAt (k : nat) : jsstring :=
  match nth_error characters k with
  | Some c => [c]
  | None => js "undefined"
  end.

(** [while (id.length < length) id += characters[...]]; every round
    lengthens [id], so [length] rounds are enough ([genID_loop_spec]). *)
Fixpoint genID_loop (fuel length_ : nat) (id : jsstring) : M jsstring :=
  match fuel with
  | O => ret id
  | S fuel' =>
      if length id <? length_ then
        k <- drawIndex ;;
        genID_loop fuel' length_ (id ++ charactersAt k)
      else ret id
  end.

Definition genID (length_ : nat) : M jsstring :=
  id <- genID_loop length_ length_ [] ;;
  ret (slice id 0 (Z.of_nat length_)).

(** Lines 389-395: the three [replace] calls of [validateRegex]. *)
Definition updatedRegexString (regexString : jsstring) : jsstring :=
  replaceEscapes 114 CR
    (replaceEscapes 116 TAB
      (replaceEscapes 110 NL regexString)).

Definition validateRegex (regexString : jsstring) : RegexValidation :=
  match RegExp_new host (updatedRegexString regexString) with
  | inr _ => {| valid := true; string_ := updatedRegexString regexString |}
  | inl e =>
      {| valid := false;
         string_ := [QUOTE] ++ updatedRegexString regexString ++ [QUOTE]
                    ++ js ": " ++ [QUOTE] ++ e ++ [QUOTE] |}
  end.

Definition invalidFromNotice (validation : RegexValidation) : Effect :=
  ENotice (js "Error: 'From' setting is invalid:" ++ [NL; NL]
           ++ string_ validation ++ [NL; NL]
           ++ js "Please update the Carry-Forward settings and try again.")
          (Some (1000 * 30)%N).

Section Transform.
Variable editor : Editor.
Variable file : TFile host.
Variable settings : CarryForwardPluginSettings.
Variable copy : CopyTypes.
Variable mode : Mode.

Definition minLine : nat := line (cursorFrom editor).
Definition maxLine : nat := line (cursorTo editor).
Definition fromCh : nat := ch (cursorFrom editor).
Definition toCh : nat := ch (cursorTo editor).

(** Lines 85-93: the leading white space is removed. *)
Definition stripCondition (lineNumber : nat) : bool :=
  removeLeadingWhitespace settings && (lineNumber =? minLine)
  && (fromCh =? toCh).

(** Lines 95-98: the line is cut to the selected columns. *)
Definition sliceCondition (lineNumber : nat) : bool :=
  ((lineNumber =? minLine) || (lineNumber =? maxLine))
  && negb ((minLine =? maxLine) && (fromCh =? toCh)).

Definition sliceToSelection (lineNumber : nat) (line_ : jsstring) : jsstring :=
  slice line_
    (if lineNumber =? minLine then Z.of_nat fromCh else 0%Z)
    (if lineNumber =? maxLine then Z.of_nat toCh
     else (Z.of_nat (length line_) - 1)%Z).

(** Lines 84-103: [copiedLine] before the blank-line test. *)
Definition initialCopiedLine (lineNumber : nat) (line_ : jsstring) : jsstring :=
  let copiedLine := line_ in
  let copiedLine :=
    if stripCondition lineNumber
    then replaceRegExp copiedLine re_leadingWhitespace []
    else copiedLine in
  if sliceCondition lineNumber
  then sliceToSelection lineNumber line_
  else copiedLine.

(** Lines 105-108: the test of the blank-line shortcut. *)
Definition blankShortcut (lineNumber : nat) : bool :=
  match matchRegExp (getLine editor lineNumber) re_blank with
  | Some _ => negb ((lineNumber =? minLine) && (minLine =? maxLine))
  | None => false
  end.

(** Lines 114-121. *)
Definition chooseLinkText : M jsstring :=
  let linkText_ := linkText settings in
  let linkText_ :=
    match mode with
    | LinkTextFromSelection => getSelection editor
    | _ => linkText_
    end in
  match mode with
  | LinkTextFromClipboard => clipboardReadText
  | _ => ret linkText_
  end.

(** Lines 137-148 and 157-170: the copied line of a linked line;
    [stripped] is the text the "from" pattern is applied to. *)
Definition composeCopiedLine (link stripped : jsstring) : M jsstring :=
  if isLinkOnly copy then
    let link := (if isEmbed copy then [BANG] else []) ++ link in
    ret (if isEmbed copy then link
         else replaceString (copiedLinkText settings) (js "{{LINK}}") link)
  else
    re <- newRegExp (lineFormatFrom settings) ;;
    ret (replaceRegExp stripped re
           (replaceString (lineFormatTo settings) (js "{{LINK}}") link)).

(** Lines 124-171: the anchor and the link of a linked line; the result
    is the rewritten line and the copied line. *)
Definition linkLine (line_ copiedLine linkText_ : jsstring)
    : M (jsstring * jsstring) :=
  match matchRegExp line_ blockIDRegex with
  | None =>
      id <- genID 5 ;;
      let newID := CARET :: id in
      let link :=
        generateMarkdownLink host file (js "/") (HASH :: newID) linkText_ in
      let line_ :=
        replaceRegExp line_ re_trailingWhitespace (SPACE :: newID) in
      copiedLine <- composeCopiedLine link copiedLine ;;
      ret (line_, copiedLine)
  | Some blockID =>
      let link :=
        generateMarkdownLink host file (js "/") (HASH :: blockID) linkText_ in
      copiedLine <-
        composeCopiedLine link (replaceRegExp copiedLine blockIDRegex []) ;;
      ret (line_, copiedLine)
  end.

(** Lines 83-182: one round of the loop, on the two arrays
    [updatedLines] and [copiedLines]. *)
Definition loopBody (lineNumber : nat)
    (arrays : list jsstring * list jsstring)
    : M (list jsstring * list jsstring) :=
  let '(updatedLines, copiedLines) := arrays in
  let line_ := getLine editor lineNumber in
  let copiedLine := initialCopiedLine lineNumber line_ in
  if blankShortcut lineNumber then
    ret (updatedLines ++ [line_], copiedLines ++ [copiedLine])
  else
    linkText_ <- chooseLinkText ;;
    '(line_, copiedLine) <-
      (if isSeparateLines copy || (lineNumber =? minLine)
       then linkLine line_ copiedLine linkText_
       else ret (line_, copiedLine)) ;;
    let copiedLines :=
      if negb (isLinkOnly copy && negb (lineNumber =? minLine))
      then copiedLines ++ [copiedLine]
      else copiedLines in
    ret (updatedLines ++ [line_], copiedLines).

(** [for (lineNumber = ...; lineNumber <= maxLine; lineNumber++)],
    over the line numbers still to visit. *)
Fixpoint forLines (lineNumbers : list nat)
    (arrays : list jsstring * list jsstring)
    : M (list jsstring * list jsstring) :=
  match lineNumbers with
  | [] => ret arrays
  | lineNumber :: rest =>
      arrays' <- loopBody lineNumber arrays ;;
      forLines rest arrays'
  end.

Definition selectedLines : list nat := seq minLine (S maxLine - minLine).

(** Lines 79-183. *)
Definition carryLines : M (list jsstring * list jsstring) :=
  forLines selectedLines ([], []).

Definition copyForwardLines : M (list Effect) :=
  let regexValidation := validateRegex (lineFormatFrom settings) in
  if negb (valid regexValidation) then
    ret [invalidFromNotice regexValidation]
  else
    '(updatedLines, copiedLines) <- carryLines ;;
    ret ([EClipboardWrite (join [NL] copiedLines);
          ETransaction {| line := minLine; ch := 0 |}
                       {| line := maxLine;
                          ch := length (getLine editor maxLine) |}
                       (join [NL] updatedLines)
                       (cursorFrom editor) (cursorTo editor)]
         ++ (if writeTextResolves host
             then [ENotice (js "Copied") None] else [])).
End Transform.
End Plugin.

(* ================================================================= *)
(** ** A host to run the transform on *)

Definition unterminatedGroup : jsstring :=
  js "SyntaxError: Invalid regular expression: /(/u: Unterminated group".

Definition unsupportedPattern : jsstring :=
  js "SyntaxError: Invalid regular expression".

(** A host with wiki-style links, a clipboard holding [clip], a random
    source that draws [seed], [seed + 1], ... (modulo the 37 characters),
    and a regular-expression compiler that knows the pattern of
    [DEFAULT_SETTINGS] and rejects every other one. *)
Definition sampleHost (seed : nat) (clip : jsstring) : Host :=
  {| TFile := jsstring;
     generateMarkdownLink := fun file _ subpath alias =>
       js "[[" ++ file ++ subpath
       ++ (match alias with [] => [] | _ => js "|" ++ alias end) ++ js "]]";
     RegExp_new := fun pattern =>
       if JS.eqb pattern (js "\s*$") then inr re_trailingWhitespace
       else if JS.eqb pattern (js "(") then inl unterminatedGroup
       else inl unsupportedPattern;
     random := fun k => (seed + k) mod 37;
     readText := fun _ => clip;
     writeTextResolves := true |}.

(** The first [{{LINK}}] of the template [pre ++ {{LINK}} ++ post] is the
    one written out. *)
Definition placeholderFirstAt (pre post : jsstring) : Prop :=
  indexOf (js "{{LINK}}") (pre ++ js "{{LINK}}" ++ post) = Some (length pre).

Definition world0 : World := {| randomCalls := 0; clipboardReads := 0 |}.

Definition pos (l c : nat) : EditorPosition := {| line := l; ch := c |}.

(* ================================================================= *)
(** ** The commands of [onload] *)

(** [copyForwardLines(editor, view, settings, copy, mode)] with its two
    default parameters: an argument left out is [CopyTypes.SeparateLines],
    respectively [Mode.LinkTextFromSettings]. *)
Definition copyForwardLinesCall (host : Host) (editor : Editor)
    (file : TFile host) (settings : CarryForwardPluginSettings)
    (copy : option CopyTypes) (mode : option Mode) : M (list Effect) :=
  copyForwardLines host editor file settings
    (match copy with Some c => c | None => SeparateLines end)
    (match mode with Some m => m | None => LinkTextFromSettings end).

(** One [addCommand] of [onload]: the id, the name, and the arguments its
    [editorCallback] passes after [this.settings]. *)
Record Command := {
  commandId : jsstring;
  commandName : jsstring;
  copyArgument : option CopyTypes;
  modeArgument : option Mode
}.

(** Lines 206-368, in the order of the source. *)
Definition commands : list Command :=
  [ {| commandId := js "carry-line-forward-separate-lines";
       commandName := js "Copy selection with each line linked to its copied source (default link text)";
       copyArgument := Some SeparateLines; modeArgument := None |};
    {| commandId := js "carry-line-forward-combined-lines";
       commandName := js "Copy selection with first line linked to its copied source (default link text)";
       copyArgument := Some CombinedLines; modeArgument := None |};
    {| commandId := js "carry-line-forward-link-only";
       commandName := js "Copy link to line (default link text)";
       copyArgument := Some LinkOnly; modeArgument := None |};
    {| commandId := js "carry-line-forward-embed-link-only";
       commandName := js "Copy embed link to line (default link text)";
       copyArgument := Some LinkOnlyEmbed; modeArgument := None |};
    {| commandId := js "carry-line-forward-separate-lines-selection";
       commandName := js "Copy selection with each line linked to its copied source (link text from selection)";
       copyArgument := Some SeparateLines;
       modeArgument := Some LinkTextFromSelection |};
    {| commandId := js "carry-line-forward-combined-lines-selection";
       commandName := js "Copy selection with first line linked to its copied source (link text from selection)";
       copyArgument := Some CombinedLines;
       modeArgument := Some LinkTextFromSelection |};
    {| commandId := js "carry-line-forward-link-only-selection";
       commandName := js "Copy link to line (link text from selection)";
       copyArgument := Some LinkOnly;
       modeArgument := Some LinkTextFromSelection |};
    {| commandId := js "carry-line-forward-embed-link-only-selection";
       commandName := js "Copy embed link to line (link text from selection)";
       copyArgument := Some LinkOnlyEmbed;
       modeArgument := Some LinkTextFromSelection |};
    {| commandId := js "carry-line-forward-separate-lines-clipboard";
       commandName := js "Copy selection with each line linked to its copied source (link text from clipboard)";
       copyArgument := Some SeparateLines;
       modeArgument := Some LinkTextFromClipboard |};
    {| commandId := js "carry-line-forward-combined-lines-clipboard";
       commandName := js "Copy selection with first line linked to its copied source (link text from clipboard)";
       copyArgument := Some CombinedLines;
       modeArgument := Some LinkTextFromClipboard |};
    {| commandId := js "carry-line-forward-link-only-clipboard";
       commandName := js "Copy link to line (link text from clipboard)";
       copyArgument := Some LinkOnly;
       modeArgument := Some LinkTextFromClipboard |};
    {| commandId := js "carry-line-forward-embed-link-only-clipboard";
       commandName := js "Copy embed link to line (link text from clipboard)";
       copyArgument := Some LinkOnlyEmbed;
       modeArgument := Some LinkTextFromClipboard |} ].

(** The [editorCallback] of a command. *)
Definition editorCallback (host : Host) (settings : CarryForwardPluginSettings)
    (c : Command) (editor : Editor) (file : TFile host) : M (list Effect) :=
  copyForwardLinesCall host editor file settings
    (copyArgument c) (modeArgument c).

(** The command registered under an id, as the host looks it up. *)
Definition findCommand (id : jsstring) : option Command :=
  find (fun c => JS.eqb (commandId c) id) commands.

Definition CopyTypes_eqb (a b : CopyTypes) : bool :=
  match a, b with
  | SeparateLines, SeparateLines | CombinedLines, CombinedLines
  | LinkOnly, LinkOnly | LinkOnlyEmbed, LinkOnlyEmbed => true
  | _, _ => false
  end.

Definition Mode_eqb (a b : Mode) : bool :=
  match a, b with
  | LinkTextFromSettings, LinkTextFromSettings
  | LinkTextFromSelection, LinkTextFromSelection
  | LinkTextFromClipboard, LinkTextFromClipboard => true
  | _, _ => false
  end.

(** The commands whose callback runs the transform in a given copy mode
    and link-text mode. *)
Definition commandsFor (copy : CopyTypes) (mode : Mode) : list Command :=
  filter (fun c =>
            CopyTypes_eqb
              (match copyArgument c with Some x => x | None => SeparateLines end)
              copy
            && Mode_eqb
                 (match modeArgument c with
                  | Some x => x
                  | None => LinkTextFromSettings
                  end)
                 mode)
         commands.

(* ================================================================= *)
(** ** Loading and saving the settings *)

(** The values a settings object holds: strings, booleans, and whatever
    else the stored JSON may carry. *)
Inductive JSValue :=
| VString (s : jsstring)
| VBoolean (b : bool)
| VOther (json : jsstring).

(** A plain object: its own enumerable properties, in insertion order. *)
Definition JSObject := list (jsstring * JSValue).

Fixpoint getProperty (k : jsstring) (o : JSObject) : option JSValue :=
  match o with
  | [] => None
  | (k', v) :: o' => if JS.eqb k k' then Some v else getProperty k o'
  end.

(** A data property [k] written on the object itself: an existing
    property keeps its place. *)
Fixpoint setProperty (k : jsstring) (v : JSValue) (o : JSObject) : JSObject :=
  match o with
  | [] => [(k, v)]
  | (k', v') :: o' =>
      if JS.eqb k k' then (k, v) :: o' else (k', v') :: setProperty k v o'
  end.

(** [target[k] = v] as [Object.assign] writes it, through [[Set]] on a
    target that is a plain object: the key [__proto__] reaches the setter
    handed down by [Object.prototype], which makes no property on the
    target; every other key becomes a data property of the target. *)
Definition assignProperty (k : jsstring) (v : JSValue) (target : JSObject)
    : JSObject :=
  if JS.eqb k (js "__proto__") then target else setProperty k v target.

(** One source of [Object.assign]; [null] and [undefined] are skipped. *)
Definition assignFrom (target : JSObject) (source : option JSObject) : JSObject :=
  match source with
  | None => target
  | Some s => fold_left (fun t kv => assignProperty (fst kv) (snd kv) t) s target
  end.

Definition Object_assign (target : JSObject) (sources : list (option JSObject))
    : JSObject :=
  fold_left assignFrom sources target.

(** A settings record as the object literal of [DEFAULT_SETTINGS] writes
    it. *)
Definition settingsObject (s : CarryForwardPluginSettings) : JSObject :=
  [ (js "linkText", VString (linkText s));
    (js "copiedLinkText", VString (copiedLinkText s));
    (js "lineFormatFrom", VString (lineFormatFrom s));
    (js "lineFormatTo", VString (lineFormatTo s));
    (js "removeLeadingWhitespace", VBoolean (removeLeadingWhitespace s)) ].

(** [loadSettings]: [Object.assign({}, DEFAULT_SETTINGS, await
    this.loadData())]; [data] is what [loadData] resolves to, [None] being
    [null]. *)
Definition loadSettings (data : option JSObject) : JSObject :=
  Object_assign [] [Some (settingsObject DEFAULT_SETTINGS); data].

(** [saveSettings]: [saveData(this.settings)] stores the settings object. *)
Definition saveSettings (s : CarryForwardPluginSettings) : option JSObject :=
  Some (settingsObject s).

Definition getString (k : jsstring) (o : JSObject) : option jsstring :=
  match getProperty k o with
  | Some (VString s) => Some s
  | _ => None
  end.

Definition getBoolean (k : jsstring) (o : JSObject) : option bool :=
  match getProperty k o with
  | Some (VBoolean b) => Some b
  | _ => None
  end.

(** The object read at the type [CarryForwardPluginSettings]: the five
    fields, when each holds a value of its declared type. *)
Definition readSettings (o : JSObject) : option CarryForwardPluginSettings :=
  match getString (js "linkText") o, getString (js "copiedLinkText") o,
        getString (js "lineFormatFrom") o, getString (js "lineFormatTo") o,
        getBoolean (js "removeLeadingWhitespace") o with
  | Some a, Some b, Some c, Some d, Some e =>
      Some {| linkText := a; copiedLinkText := b; lineFormatFrom := c;
              lineFormatTo := d; removeLeadingWhitespace := e |}
  | _, _, _, _, _ => None
  end.

(** The keys of an object are pairwise different. *)
Fixpoint distinctKeys (o : JSObject) : bool :=
  match o with
  | [] => true
  | (k, _) :: o' =>
      match getProperty k o' with
      | None => distinctKeys o'
      | Some _ => false
      end
  end.

(* ================================================================= *)
(** ** The settings tab *)

(** The tab while it is shown: the settings of the plug-in, whether
    [fromToEl] carries the class [invalid], and the data last saved. *)
Record SettingTab := {
  tabSettings : CarryForwardPluginSettings;
  fromToInvalid : bool;
  savedData : option JSObject
}.

Definition emptyString (value : jsstring) : bool :=
  match value with
  | [] => true
  | _ :: _ => false
  end.

Section SettingTabHandlers.
Variable host : Host.

(** Lines 467-469 of [display]: the element is new, it gets the class when
    the stored pattern is not valid. *)
Definition display (settings : CarryForwardPluginSettings)
    (data : option JSObject) : SettingTab :=
  {| tabSettings := settings;
     fromToInvalid := negb (valid (validateRegex host (lineFormatFrom settings)));
     savedData := data |}.

(** Lines 430-433. *)
Definition onChangeLinkText (value : jsstring) (tab : SettingTab) : SettingTab :=
  let s := tabSettings tab in
  let s := {| linkText := value; copiedLinkText := copiedLinkText s;
              lineFormatFrom := lineFormatFrom s; lineFormatTo := lineFormatTo s;
              removeLeadingWhitespace := removeLeadingWhitespace s |} in
  {| tabSettings := s; fromToInvalid := fromToInvalid tab;
     savedData := saveSettings s |}.

(** Lines 451-454. *)
Definition onChangeCopiedLinkText (value : jsstring) (tab : SettingTab)
    : SettingTab :=
  let s := tabSettings tab in
  let s := {| linkText := linkText s; copiedLinkText := value;
              lineFormatFrom := lineFormatFrom s; lineFormatTo := lineFormatTo s;
              removeLeadingWhitespace := removeLeadingWhitespace s |} in
  {| tabSettings := s; fromToInvalid := fromToInvalid tab;
     savedData := saveSettings s |}.

(** Lines 480-493. *)
Definition onChangeFrom (value : jsstring) (tab : SettingTab) : SettingTab :=
  let s := tabSettings tab in
  let '(from, invalid) :=
    if emptyString value then
      (lineFormatFrom DEFAULT_SETTINGS, fromToInvalid tab)
    else
      (value, if negb (valid (validateRegex host value)) then true else false) in
  let s := {| linkText := linkText s; copiedLinkText := copiedLinkText s;
              lineFormatFrom := from; lineFormatTo := lineFormatTo s;
              removeLeadingWhitespace := removeLeadingWhitespace s |} in
  {| tabSettings := s; fromToInvalid := invalid; savedData := saveSettings s |}.

(** Lines 505-512. *)
Definition onChangeTo (value : jsstring) (tab : SettingTab) : SettingTab :=
  let s := tabSettings tab in
  let to :=
    if emptyString value then lineFormatTo DEFAULT_SETTINGS else value in
  let s := {| linkText := linkText s; copiedLinkText := copiedLinkText s;
              lineFormatFrom := lineFormatFrom s; lineFormatTo := to;
              removeLeadingWhitespace := removeLeadingWhitespace s |} in
  {| tabSettings := s; fromToInvalid := fromToInvalid tab;
     savedData := saveSettings s |}.

(** Lines 522-527. *)
Definition onChangeRemoveLeadingWhitespace (value : bool) (tab : SettingTab)
    : SettingTab :=
  let s := tabSettings tab in
  let s := {| linkText := linkText s; copiedLinkText := copiedLinkText s;
              lineFormatFrom := lineFormatFrom s; lineFormatTo := lineFormatTo s;
              removeLeadingWhitespace := value |} in
  {| tabSettings := s; fromToInvalid := fromToInvalid tab;
     savedData := saveSettings s |}.

(** An edit of one control of the tab. *)
Inductive Change :=
| ChangeLinkText (value : jsstring)
| ChangeCopiedLinkText (value : jsstring)
| ChangeFrom (value : jsstring)
| ChangeTo (value : jsstring)
| ChangeRemoveLeadingWhitespace (value : bool).

Definition onChange (tab : SettingTab) (c : Change) : SettingTab :=
  match c with
  | ChangeLinkText v => onChangeLinkText v tab
  | ChangeCopiedLinkText v => onChangeCopiedLinkText v tab
  | ChangeFrom v => onChangeFrom v tab
  | ChangeTo v => onChangeTo v tab
  | ChangeRemoveLeadingWhitespace v => onChangeRemoveLeadingWhitespace v tab
  end.
End SettingTabHandlers.

(* ================================================================= *)
(** ** Words to state the properties *)

(** A backslash followed by the letter [x] occurs in [s]. *)
Fixpoint hasEscape (x : N) (s : jsstring) : bool :=
  match s with
  | a :: ((b :: _) as t) => (N.eqb a BACKSLASH && N.eqb b x) || hasEscape x t
  | _ => false
  end.

(** The text of a line is its source, or its source with the trailing
    white space replaced by one space and a new token. *)
Definition rewrittenFrom (source rewritten : jsstring) : Prop :=
  rewritten = source
  \/ exists id,
       length id = 5 /\ forallb isTokenChar id = true
       /\ matchRegExp source blockIDRegex = None
       /\ rewritten = trimEnd source ++ SPACE :: CARET :: id.

(** The selected lines that put a line into [copiedLines]. *)
Definition copiesLine (editor : Editor) (copy : CopyTypes) (n : nat) : bool :=
  blankShortcut editor n || negb (isLinkOnly copy) || (n =? minLine editor).

(** The line breaks of a text. *)
Definition countNL (s : jsstring) : nat := length (filter (N.eqb NL) s).

(* ================================================================= *)
(** ** Facts about the string library *)

Lemma substituteFrom_plain m str p caps named (t : jsstring) :
  noDollar t = true ->
  substituteFrom m str p caps named 0 t = t.
Proof.
  induction t as [|c t IH]; simpl; [reflexivity|].
  intros H. apply andb_true_iff in H as [Hc Ht].
  rewrite Hc. simpl. now rewrite IH.
Qed.

Lemma GetSubstitution_plain m str p caps named (t : jsstring) :
  noDollar t = true -> GetSubstitution m str p caps named t = t.
Proof. apply substituteFrom_plain. Qed.

Lemma firstn_exact {A : Type} (a b : list A) : firstn (length a) (a ++ b) = a.
Proof.
  rewrite firstn_app, Nat.sub_diag, firstn_all. simpl. apply app_nil_r.
Qed.

Lemma skipn_exact {A : Type} (a b : list A) : skipn (length a) (a ++ b) = b.
Proof.
  rewrite skipn_app, Nat.sub_diag, skipn_all. reflexivity.
Qed.

(** A pattern that starts with [^] is tried with success at position 0
    only. *)
Lemma searchFrom_after_start f c i s :
  (forall p rest, f (Some p) rest = None) ->
  searchFrom f (Some c) i s = None.
Proof.
  intros Hf. revert c i.
  induction s as [|x s IH]; intros c i; simpl; rewrite Hf; auto.
Qed.

Lemma re_blank_spec (s : jsstring) :
  matchRegExp s re_blank = if forallb isWhiteSpace s then Some s else None.
Proof.
  unfold matchRegExp, re_blank, search.
  destruct s as [|c s]; [reflexivity|].
  cbn [searchFrom].
  destruct (forallb isWhiteSpace (c :: s)); [reflexivity|].
  now rewrite searchFrom_after_start.
Qed.

Lemma re_leadingWhitespace_spec (s : jsstring) :
  re_leadingWhitespace s = Some (plainMatch 0 (takeWhile isWhiteSpace s)).
Proof. destruct s; reflexivity. Qed.

Lemma takeWhile_split p (s : jsstring) :
  s = takeWhile p s ++ skipn (length (takeWhile p s)) s.
Proof.
  induction s as [|c s IH]; simpl; [reflexivity|].
  destruct (p c); simpl; [now rewrite <- IH | reflexivity].
Qed.

(** [s.replace(/^\s*/, "")] drops the leading white space. *)
Lemma strip_leading_whitespace (s : jsstring) :
  replaceRegExp s re_leadingWhitespace []
  = skipn (length (takeWhile isWhiteSpace s)) s.
Proof.
  unfold replaceRegExp. rewrite re_leadingWhitespace_spec. reflexivity.
Qed.

Lemma trimEnd_split (s : jsstring) :
  exists ws, s = trimEnd s ++ ws /\ forallb isWhiteSpace ws = true.
Proof.
  induction s as [|c s [ws [E W]]].
  - exists []. split; reflexivity.
  - cbn [trimEnd]. destruct (forallb isWhiteSpace (c :: s)) eqn:B.
    + exists (c :: s). split; [reflexivity | exact B].
    + exists ws. split; [simpl; now rewrite <- E | exact W].
Qed.

Lemma searchFrom_trailingWhitespace prev i (s : jsstring) :
  exists ws,
    s = trimEnd s ++ ws /\ forallb isWhiteSpace ws = true /\
    searchFrom (fun _ rest => if forallb isWhiteSpace rest then Some rest else None)
      prev i s
    = Some (plainMatch (i + length (trimEnd s)) ws).
Proof.
  revert prev i. induction s as [|c s IH]; intros prev i.
  - exists []. simpl. now rewrite Nat.add_0_r.
  - cbn [searchFrom trimEnd].
    destruct (forallb isWhiteSpace (c :: s)) eqn:B.
    + exists (c :: s). simpl. now rewrite Nat.add_0_r.
    + destruct (IH (Some c) (S i)) as [ws [E [W R]]].
      exists ws. repeat split; [simpl; now rewrite <- E | exact W |].
      rewrite R. simpl. now rewrite Nat.add_succ_r.
Qed.

(** [line.replace(/\s*?$/, t)] for a [t] free of [$]: the trailing white
    space gives way to [t]. *)
Lemma replace_trailingWhitespace (s t : jsstring) :
  noDollar t = true ->
  replaceRegExp s re_trailingWhitespace t = trimEnd s ++ t.
Proof.
  intros Ht. unfold replaceRegExp, re_trailingWhitespace, search.
  destruct (searchFrom_trailingWhitespace None 0 s) as [ws [E [W R]]].
  rewrite R. cbn [index matched captures groups plainMatch Nat.add].
  rewrite GetSubstitution_plain by exact Ht.
  assert (L : length s = length (trimEnd s) + length ws)
    by (rewrite E at 1; apply length_app).
  rewrite Nat.min_l by lia.
  rewrite <- L, skipn_all, app_nil_r.
  pose proof (firstn_exact (trimEnd s) ws) as F.
  rewrite <- E in F. now rewrite F.
Qed.

Lemma trimEnd_not_blank (s : jsstring) :
  forallb isWhiteSpace s = false -> trimEnd s <> [].
Proof.
  destruct s as [|c s]; [discriminate|].
  intros B. cbn [trimEnd]. rewrite B. discriminate.
Qed.

(* ================================================================= *)
(** ** Anchor detection *)

Lemma blockIDAt_inner prev x (a b : jsstring) y :
  isBlockIDChar y = false -> blockIDAt prev (x :: a ++ y :: b) = None.
Proof.
  intros Hy. unfold blockIDAt.
  destruct prev as [p|]; [|reflexivity].
  destruct (isWhiteSpace p || N.eqb p CARET); [|reflexivity].
  rewrite forallb_app. cbn [forallb]. rewrite Hy.
  now rewrite andb_false_r, andb_false_r.
Qed.

Lemma searchFrom_blockID prev i (body id : jsstring) p :
  (isWhiteSpace p || N.eqb p CARET) = true ->
  id <> [] -> forallb isBlockIDChar id = true ->
  searchFrom blockIDAt prev i (body ++ p :: CARET :: id)
  = Some (plainMatch (i + S (length body)) (CARET :: id)).
Proof.
  intros Hp Hne Hid. revert prev i.
  induction body as [|x body IH]; intros prev i.
  - cbn [app searchFrom].
    pose proof (blockIDAt_inner prev p [] id CARET eq_refl) as X.
    cbn [app] in X. rewrite X.
    cbn [blockIDAt]. rewrite Hp, Hid.
    destruct id as [|c id]; [contradiction|].
    simpl. now rewrite Nat.add_1_r.
  - cbn [app searchFrom].
    pose proof (blockIDAt_inner prev x (body ++ [p]) id CARET eq_refl) as X.
    rewrite <- app_assoc in X. cbn [app] in X. rewrite X.
    rewrite IH. simpl. do 2 f_equal. lia.
Qed.

(** A line that ends in white space or a caret, then [^] and a
    non-empty run of [[a-zA-Z0-9-]], has that token as its block ID. *)
Lemma blockID_found (body id : jsstring) p :
  (isWhiteSpace p || N.eqb p CARET) = true ->
  id <> [] -> forallb isBlockIDChar id = true ->
  matchRegExp (body ++ p :: CARET :: id) blockIDRegex = Some (CARET :: id).
Proof.
  intros Hp Hne Hid. unfold matchRegExp, blockIDRegex, search.
  now rewrite searchFrom_blockID.
Qed.

Lemma not_blank_with_caret (body rest : jsstring) :
  forallb isWhiteSpace (body ++ CARET :: rest) = false.
Proof.
  rewrite forallb_app. cbn [forallb].
  replace (isWhiteSpace CARET) with false by reflexivity.
  now rewrite andb_false_r.
Qed.

(* ================================================================= *)
(** ** Token generation *)

Lemma isTokenChar_isBlockIDChar c : isTokenChar c = true -> isBlockIDChar c = true.
Proof.
  unfold isTokenChar, isBlockIDChar. intros H.
  repeat (apply orb_true_iff in H as [H|H]); rewrite H;
    repeat rewrite orb_true_r; reflexivity.
Qed.

Lemma token_isBlockID (id : jsstring) :
  forallb isTokenChar id = true -> forallb isBlockIDChar id = true.
Proof.
  rewrite !forallb_forall. intros H c Hc. now apply isTokenChar_isBlockIDChar, H.
Qed.

Lemma token_noDollar (id : jsstring) :
  forallb isTokenChar id = true -> noDollar id = true.
Proof.
  unfold noDollar. rewrite !forallb_forall. intros H c Hc.
  specialize (H c Hc). destruct (N.eqb_spec c DOLLAR) as [->|]; [discriminate H | reflexivity].
Qed.

Lemma charactersAt_token k :
  forallb isTokenChar (charactersAt k) = true /\ 1 <= length (charactersAt k).
Proof.
  unfold charactersAt. destruct (nth_error characters k) as [c|] eqn:E.
  - split; [|simpl; lia]. cbn [forallb]. rewrite andb_true_r.
    apply nth_error_In in E.
    assert (A : forallb isTokenChar characters = true) by reflexivity.
    rewrite forallb_forall in A. now apply A.
  - split; [reflexivity | simpl; lia].
Qed.

Lemma slice_prefix (s : jsstring) n :
  n <= length s -> slice s 0 (Z.of_nat n) = firstn n s.
Proof.
  intros H. unfold slice.
  replace (0 <? 0)%Z with false by reflexivity.
  destruct (Z.ltb_spec (Z.of_nat n) 0); [lia|].
  rewrite Z.min_l by lia. rewrite Z.min_l by lia.
  rewrite Z.sub_0_r, Z.max_l by lia. now rewrite Nat2Z.id.
Qed.

Section TokenGeneration.
Variable host : Host.

Lemma genID_loop_spec fuel length_ (id : jsstring) w :
  forallb isTokenChar id = true ->
  exists id' w',
    genID_loop host fuel length_ id w = (Ok id', w')
    /\ forallb isTokenChar id' = true
    /\ (length_ <= fuel + length id -> length_ <= length id')
    /\ clipboardReads w' = clipboardReads w.
Proof.
  revert id w. induction fuel as [|fuel IH]; intros id w Hid.
  - exists id, w. cbn. repeat split; auto.
  - cbn [genID_loop]. destruct (Nat.ltb_spec (length id) length_) as [Hlt|Hge].
    + unfold bind, drawIndex at 1.
      destruct (charactersAt_token (random host (randomCalls w))) as [Ht Hl].
      destruct (IH (id ++ charactersAt (random host (randomCalls w)))
                   {| randomCalls := S (randomCalls w);
                      clipboardReads := clipboardReads w |})
        as [id' [w' [E [T [L C]]]]].
      { rewrite forallb_app, Hid, Ht. reflexivity. }
      exists id', w'. repeat split; auto.
      intros Hf. apply L. rewrite length_app. lia.
    + exists id, w. cbn. repeat split; auto.
Qed.

(** [genID()] returns: five code units, each of the alphabet; the loop
    has left through its exit test. *)
Lemma genID_spec w :
  exists id w',
    genID host 5 w = (Ok id, w')
    /\ length id = 5 /\ forallb isTokenChar id = true
    /\ clipboardReads w' = clipboardReads w.
Proof.
  destruct (genID_loop_spec 5 5 [] w eq_refl) as [id' [w' [E [T [L C]]]]].
  specialize (L (Nat.le_refl _)).
  exists (firstn 5 id'), w'. unfold genID, bind. rewrite E.
  unfold ret. rewrite (slice_prefix id' 5 L).
  repeat split; auto.
  - rewrite length_firstn. lia.
  - rewrite forallb_forall in *. intros c Hc. apply T.
    rewrite <- (firstn_skipn 5 id'). apply in_or_app. now left.
Qed.
End TokenGeneration.

(* ================================================================= *)
(** ** The loop body, step by step *)

Lemma chooseLinkText_returns host editor settings mode w :
  exists linkText_ w',
    chooseLinkText host editor settings mode w = (Ok linkText_, w')
    /\ randomCalls w' = randomCalls w.
Proof.
  unfold chooseLinkText.
  destruct mode; cbn; do 2 eexists; split; reflexivity.
Qed.

Lemma blankShortcut_spec editor n :
  blankShortcut editor n
  = forallb isWhiteSpace (getLine editor n)
    && negb ((n =? minLine editor) && (minLine editor =? maxLine editor)).
Proof.
  unfold blankShortcut. rewrite re_blank_spec.
  destruct (forallb isWhiteSpace (getLine editor n)); reflexivity.
Qed.

(** With a "from" pattern that passes [validateRegex], the command is the
    loop followed by the clipboard write and the transaction. *)
Lemma copyForwardLines_valid host editor file settings copy mode w re :
  RegExp_new host (updatedRegexString (lineFormatFrom settings)) = inr re ->
  copyForwardLines host editor file settings copy mode w
  = bind (carryLines host editor file settings copy mode)
      (fun arrays =>
         ret ([EClipboardWrite (join [NL] (snd arrays));
               ETransaction {| line := minLine editor; ch := 0 |}
                 {| line := maxLine editor;
                    ch := length (getLine editor (maxLine editor)) |}
                 (join [NL] (fst arrays))
                 (cursorFrom editor) (cursorTo editor)]
              ++ (if writeTextResolves host
                  then [ENotice (js "Copied") None] else [])))
      w.
Proof.
  intros R. unfold copyForwardLines, validateRegex. rewrite R. cbn [valid negb].
  unfold bind. destruct (carryLines host editor file settings copy mode w)
    as [[[U C]|e] w']; reflexivity.
Qed.

(** C7. The leading-white-space strip and the column slice never both
    shape the copied line.  On a collapsed selection (one line, start column
    equal to end column) only the strip can act, the slice never does; on
    every other selection only the slice can act: the copied line is then
    cut from the full line, whatever [removeLeadingWhitespace] says. *)
Theorem strip_and_slice_exclusive editor settings n (l : jsstring) :
  initialCopiedLine editor settings n l
  = if (minLine editor =? maxLine editor) && (fromCh editor =? toCh editor)
    then (if removeLeadingWhitespace settings && (n =? minLine editor)
          then replaceRegExp l re_leadingWhitespace []
          else l)
    else (if (n =? minLine editor) || (n =? maxLine editor)
          then sliceToSelection editor n l
          else l).
Proof.
  unfold initialCopiedLine, stripCondition, sliceCondition.
  destruct (minLine editor =? maxLine editor) eqn:L;
    destruct (fromCh editor =? toCh editor) eqn:C;
    destruct (n =? minLine editor) eqn:A;
    destruct (n =? maxLine editor) eqn:B;
    destruct (removeLeadingWhitespace settings);
    try reflexivity.
Qed.

(** C4. When [new RegExp] rejects the "from" pattern that [validateRegex]
    hands to it, the command shows the 30-second warning and does nothing
    else, in every copy mode and link-text mode: no clipboard write, no
    transaction, no clipboard read and no random draw. *)
Theorem invalid_from_pattern_is_noop host editor file settings copy mode w e :
  RegExp_new host (updatedRegexString (lineFormatFrom settings)) = inl e ->
  copyForwardLines host editor file settings copy mode w
  = (Ok [ENotice
           (js "Error: 'From' setting is invalid:" ++ [NL; NL]
            ++ ([QUOTE] ++ updatedRegexString (lineFormatFrom settings)
                ++ [QUOTE] ++ js ": " ++ [QUOTE] ++ e ++ [QUOTE])
            ++ [NL; NL]
            ++ js "Please update the Carry-Forward settings and try again.")
           (Some 30000%N)],
     w).
Proof.
  intros H. unfold copyForwardLines, validateRegex. rewrite H. reflexivity.
Qed.

Lemma invalid_from_pattern_is_noop_witness :
  copyForwardLines (sampleHost 0 [])
    (editorOf [js "one"; js "two"] (pos 0 0) (pos 1 3) (js "one"))
    (js "note")
    {| linkText := []; copiedLinkText := js "(see {{LINK}})";
       lineFormatFrom := js "("; lineFormatTo := js " (see {{LINK}})";
       removeLeadingWhitespace := true |}
    CombinedLines LinkTextFromClipboard world0
  = (Ok [ENotice
           (js "Error: 'From' setting is invalid:" ++ [NL; NL]
            ++ ([QUOTE] ++ js "(" ++ [QUOTE] ++ js ": " ++ [QUOTE]
                ++ unterminatedGroup ++ [QUOTE])
            ++ [NL; NL]
            ++ js "Please update the Carry-Forward settings and try again.")
           (Some 30000%N)],
     world0).
Proof.
  apply (invalid_from_pattern_is_noop (sampleHost 0 [])). reflexivity.
Defined.

(** C6 (amended). A selected line that is empty or all white space, in a
    selection of more than one line, passes through: the line itself goes
    to the rewritten lines, its column-cut copy to the copied lines, no
    token is drawn, the clipboard is not read, and the loop goes on. *)
Theorem blank_line_shortcut host editor file settings copy mode n U C w :
  forallb isWhiteSpace (getLine editor n) = true ->
  ~ (n = minLine editor /\ minLine editor = maxLine editor) ->
  loopBody host editor file settings copy mode n (U, C) w
  = (Ok (U ++ [getLine editor n],
         C ++ [initialCopiedLine editor settings n (getLine editor n)]),
     w).
Proof.
  intros B S. unfold loopBody. rewrite blankShortcut_spec, B.
  destruct (Nat.eqb_spec n (minLine editor));
    destruct (Nat.eqb_spec (minLine editor) (maxLine editor));
    try reflexivity.
  exfalso. apply S. now split.
Qed.

Lemma blank_line_shortcut_witness :
  loopBody (sampleHost 0 [])
    (editorOf [js "one"; js "  "; js "two"] (pos 0 0) (pos 2 3) [])
    (js "note") DEFAULT_SETTINGS SeparateLines LinkTextFromSettings 1
    ([js "one ^abcde"], [js "one (see [[note#^abcde]])"]) world0
  = (Ok ([js "one ^abcde"; js "  "],
         [js "one (see [[note#^abcde]])"; js "  "]),
     world0).
Proof.
  apply (blank_line_shortcut (sampleHost 0 [])
           (editorOf [js "one"; js "  "; js "two"] (pos 0 0) (pos 2 3) [])).
  - reflexivity.
  - cbn. intros [H _]. discriminate H.
Defined.

(** The claim C6 as written fails on a one-line selection that is not
    collapsed: the white-space line gets an anchor. *)
Lemma blank_line_in_one_line_selection_gets_anchor :
  let editor := editorOf [js "   "] (pos 0 0) (pos 0 2) (js "  ") in
  forallb isWhiteSpace (getLine editor 0) = true
  /\ ~ (minLine editor = maxLine editor /\ fromCh editor = toCh editor)
  /\ loopBody (sampleHost 3 []) editor (js "note") DEFAULT_SETTINGS
       SeparateLines LinkTextFromSettings 0 ([], []) world0
     = (Ok ([js " ^defgh"], [js " (see [[note#^defgh]])"]),
        {| randomCalls := 5; clipboardReads := 0 |}).
Proof.
  cbn zeta. split; [reflexivity|]. split.
  - cbn. intros [_ H]. discriminate H.
  - vm_compute. reflexivity.
Qed.

Lemma anchor_text_noDollar (id : jsstring) :
  forallb isTokenChar id = true -> noDollar (SPACE :: CARET :: id) = true.
Proof.
  intros T. unfold noDollar. cbn [forallb].
  apply token_noDollar in T. unfold noDollar in T. now rewrite T.
Qed.

(** C9. On a line without a recognised trailing anchor, [genID] returns
    five code units, each a lowercase letter, a digit or a hyphen; the
    token is [^] followed by them (six code units); it is appended to the
    rewritten line after one space, in place of the trailing white space,
    and the copied line is composed from the copied text as it is (no
    existing anchor is removed from it).  The rewritten line then carries
    the token as its block ID. *)
Theorem new_token_generation host file settings copy
    (line_ copiedLine linkText_ : jsstring) w :
  matchRegExp line_ blockIDRegex = None ->
  exists id w1,
    genID host 5 w = (Ok id, w1)
    /\ length id = 5
    /\ forallb isTokenChar id = true
    /\ length (CARET :: id) = 6
    /\ linkLine host file settings copy line_ copiedLine linkText_ w
       = bind (composeCopiedLine host settings copy
                 (generateMarkdownLink host file (js "/")
                    (HASH :: CARET :: id) linkText_)
                 copiedLine)
              (fun copied => ret (trimEnd line_ ++ SPACE :: CARET :: id, copied))
              w1
    /\ matchRegExp (trimEnd line_ ++ SPACE :: CARET :: id) blockIDRegex
       = Some (CARET :: id).
Proof.
  intros H. destruct (genID_spec host w) as [id [w1 [E [L [T _]]]]].
  exists id, w1. repeat split; auto.
  - cbn [length]. now rewrite L.
  - unfold linkLine. rewrite H. unfold bind at 1. rewrite E.
    rewrite replace_trailingWhitespace by now apply anchor_text_noDollar.
    reflexivity.
  - apply blockID_found; [reflexivity | | now apply token_isBlockID].
    intros ->. discriminate L.
Qed.

Lemma new_token_generation_witness :
  exists id w1,
    genID (sampleHost 36 []) 5 world0 = (Ok id, w1)
    /\ length id = 5
    /\ forallb isTokenChar id = true
    /\ length (CARET :: id) = 6
    /\ linkLine (sampleHost 36 []) (js "note") DEFAULT_SETTINGS SeparateLines
         (js "carry me  ") (js "carry me  ") [] world0
       = bind (composeCopiedLine (sampleHost 36 []) DEFAULT_SETTINGS SeparateLines
                 (generateMarkdownLink (sampleHost 36 []) (js "note") (js "/")
                    (HASH :: CARET :: id) [])
                 (js "carry me  "))
              (fun copied =>
                 ret (trimEnd (js "carry me  ") ++ SPACE :: CARET :: id, copied))
              w1
    /\ matchRegExp (trimEnd (js "carry me  ") ++ SPACE :: CARET :: id) blockIDRegex
       = Some (CARET :: id).
Proof.
  apply (new_token_generation (sampleHost 36 []) (js "note") DEFAULT_SETTINGS
           SeparateLines (js "carry me  ") (js "carry me  ") [] world0).
  reflexivity.
Defined.

(* ================================================================= *)
(** ** The placeholder and the "from"/"to" rule *)

Lemma replaceString_first_only (pre post link : jsstring) :
  placeholderFirstAt pre post ->
  replaceString (pre ++ js "{{LINK}}" ++ post) (js "{{LINK}}") link
  = pre
    ++ GetSubstitution (js "{{LINK}}") (pre ++ js "{{LINK}}" ++ post)
         (length pre) [] None link
    ++ post.
Proof.
  intros H. unfold replaceString. rewrite H.
  rewrite firstn_exact. do 2 f_equal.
  rewrite skipn_app.
  replace (length pre + length (js "{{LINK}}") - length pre)
    with (length (js "{{LINK}}")) by lia.
  rewrite skipn_all2 by lia. now rewrite skipn_exact.
Qed.

(** Where the link reference has no [$] in it, the placeholder is
    filled as meant: only the first [{{LINK}}] of the "copied reference"
    template (LinkOnly) and of the "to" template (SeparateLines,
    CombinedLines) gives way to the link, and the text after it, later
    placeholders included, is kept as it is. *)
Theorem placeholder_replaced_once host settings copy
    (link stripped pre post : jsstring) w :
  noDollar link = true ->
  placeholderFirstAt pre post ->
  (copiedLinkText settings = pre ++ js "{{LINK}}" ++ post ->
   composeCopiedLine host settings LinkOnly link stripped w
   = (Ok (pre ++ link ++ post), w))
  /\ (lineFormatTo settings = pre ++ js "{{LINK}}" ++ post ->
      isLinkOnly copy = false ->
      composeCopiedLine host settings copy link stripped w
      = bind (newRegExp host (lineFormatFrom settings))
             (fun re => ret (replaceRegExp stripped re (pre ++ link ++ post)))
             w).
Proof.
  intros D F. split.
  - intros T. unfold composeCopiedLine. cbn [isLinkOnly isEmbed app].
    rewrite T, replaceString_first_only, GetSubstitution_plain by assumption.
    reflexivity.
  - intros T L. unfold composeCopiedLine. rewrite L.
    rewrite T, replaceString_first_only, GetSubstitution_plain by assumption.
    reflexivity.
Qed.

Lemma placeholder_replaced_once_witness :
  let settings :=
    {| linkText := []; copiedLinkText := js "(see {{LINK}}) {{LINK}}";
       lineFormatFrom := js "\s*$"; lineFormatTo := js "(see {{LINK}}) {{LINK}}";
       removeLeadingWhitespace := true |} in
  composeCopiedLine (sampleHost 0 []) settings LinkOnly
    (js "[[note#^abcde]]") (js "text") world0
  = (Ok (js "(see " ++ js "[[note#^abcde]]" ++ js ") {{LINK}}"), world0)
  /\ composeCopiedLine (sampleHost 0 []) settings CombinedLines
       (js "[[note#^abcde]]") (js "text") world0
     = bind (newRegExp (sampleHost 0 []) (js "\s*$"))
            (fun re =>
               ret (replaceRegExp (js "text") re
                      (js "(see " ++ js "[[note#^abcde]]" ++ js ") {{LINK}}")))
            world0.
Proof.
  intros settings.
  destruct (placeholder_replaced_once (sampleHost 0 []) settings CombinedLines
              (js "[[note#^abcde]]") (js "text") (js "(see ") (js ") {{LINK}}")
              world0 eq_refl eq_refl) as [A B].
  split; [apply A; reflexivity | apply B; reflexivity].
Defined.

(** C10 (the code departs from it). The link is handed to
    [String.prototype.replace] as the replacement text, where [$$], [$&],
    [$`] and [$'] are replacement patterns: with the link text [$&] the
    first [{{LINK}}] of the template does not give way to the link
    [[[note#^defgh|$&]]] but to [[[note#^defgh|{{LINK}}]]], the link in
    which [$&] has become the matched placeholder.  The second [{{LINK}}]
    stays as it is. *)
Lemma placeholder_not_replaced_by_link_with_dollar :
  let host := sampleHost 3 (js "$&") in
  let settings :=
    {| linkText := []; copiedLinkText := js "{{LINK}} and {{LINK}}";
       lineFormatFrom := js "\s*$"; lineFormatTo := js " (see {{LINK}})";
       removeLeadingWhitespace := true |} in
  let link :=
    generateMarkdownLink host (js "note") (js "/") (js "#^defgh") (js "$&") in
  link = js "[[note#^defgh|$&]]"
  /\ loopBody host (editorOf [js "text"] (pos 0 0) (pos 0 0) []) (js "note")
       settings LinkOnly LinkTextFromClipboard 0 ([], []) world0
     = (Ok ([js "text ^defgh"], [js "[[note#^defgh|{{LINK}}]] and {{LINK}}"]),
        {| randomCalls := 5; clipboardReads := 1 |})
  /\ js "[[note#^defgh|{{LINK}}]] and {{LINK}}" <> link ++ js " and {{LINK}}".
Proof.
  cbn zeta. split; [reflexivity|]. split; [vm_compute; reflexivity|].
  vm_compute. discriminate.
Qed.

Lemma composeCopiedLine_lineCarry host settings copy (link stripped : jsstring) w re :
  isLinkOnly copy = false ->
  RegExp_new host (lineFormatFrom settings) = inr re ->
  composeCopiedLine host settings copy link stripped w
  = (Ok (replaceRegExp stripped re
           (replaceString (lineFormatTo settings) (js "{{LINK}}") link)),
     w).
Proof.
  intros L R. unfold composeCopiedLine, bind, newRegExp. now rewrite L, R.
Qed.

Lemma linkLine_lineCarry host file settings copy (l c linkText_ : jsstring) w re :
  isLinkOnly copy = false ->
  RegExp_new host (lineFormatFrom settings) = inr re ->
  exists line' link stripped w',
    linkLine host file settings copy l c linkText_ w
    = (Ok (line',
           replaceRegExp stripped re
             (replaceString (lineFormatTo settings) (js "{{LINK}}") link)),
       w')
    /\ (stripped = c \/ stripped = replaceRegExp c blockIDRegex []).
Proof.
  intros L R. unfold linkLine.
  destruct (matchRegExp l blockIDRegex) as [blockID|].
  - unfold bind. rewrite (composeCopiedLine_lineCarry _ _ _ _ _ _ re L R).
    do 4 eexists. split; [reflexivity | now right].
  - destruct (genID_spec host w) as [id [w1 [E _]]].
    unfold bind. rewrite E.
    rewrite (composeCopiedLine_lineCarry _ _ _ _ _ _ re L R).
    do 4 eexists. split; [reflexivity | now left].
Qed.

(** C8 (amended). In SeparateLines and CombinedLines the "from"
    expression with the "to" template is applied to the copied line of
    every line that gets an anchor and a link: every line that the
    blank-line shortcut does not pass through in SeparateLines, the first
    line only in CombinedLines.  The other copied lines are the column-cut
    text, and their source lines are not rewritten. *)
Theorem lineFormat_applied_to_linked_lines host editor file settings copy mode
    n U C w re :
  isLinkOnly copy = false ->
  blankShortcut editor n = false ->
  RegExp_new host (lineFormatFrom settings) = inr re ->
  exists line' copied' w',
    loopBody host editor file settings copy mode n (U, C) w
    = (Ok (U ++ [line'], C ++ [copied']), w')
    /\ if isSeparateLines copy || (n =? minLine editor)
       then exists link stripped,
              copied' = replaceRegExp stripped re
                          (replaceString (lineFormatTo settings) (js "{{LINK}}") link)
              /\ (stripped = initialCopiedLine editor settings n (getLine editor n)
                  \/ stripped
                     = replaceRegExp
                         (initialCopiedLine editor settings n (getLine editor n))
                         blockIDRegex [])
       else copied' = initialCopiedLine editor settings n (getLine editor n)
            /\ line' = getLine editor n.
Proof.
  intros L B R. unfold loopBody. rewrite B.
  destruct (chooseLinkText_returns host editor settings mode w)
    as [linkText_ [w1 [E _]]].
  unfold bind at 1. rewrite E. rewrite L. cbn [andb negb].
  destruct (isSeparateLines copy || (n =? minLine editor)).
  - destruct (linkLine_lineCarry host file settings copy (getLine editor n)
                (initialCopiedLine editor settings n (getLine editor n))
                linkText_ w1 re L R)
      as [line' [link [stripped [w' [E' S]]]]].
    unfold bind. rewrite E'. cbn.
    do 3 eexists. split; [reflexivity|]. exists link, stripped. now split.
  - cbn. do 3 eexists. split; [reflexivity|]. now split.
Qed.

Lemma lineFormat_applied_to_linked_lines_witness :
  let editor := editorOf [js "one"; js "two"] (pos 0 0) (pos 1 3) [] in
  exists line' copied' w',
    loopBody (sampleHost 0 []) editor (js "note") DEFAULT_SETTINGS
      CombinedLines LinkTextFromSettings 1 ([], []) world0
    = (Ok ([] ++ [line'], [] ++ [copied']), w')
    /\ if isSeparateLines CombinedLines || (1 =? minLine editor)
       then exists link stripped,
              copied' = replaceRegExp stripped re_trailingWhitespace
                          (replaceString (lineFormatTo DEFAULT_SETTINGS)
                             (js "{{LINK}}") link)
              /\ (stripped
                  = initialCopiedLine editor DEFAULT_SETTINGS 1 (getLine editor 1)
                  \/ stripped
                     = replaceRegExp
                         (initialCopiedLine editor DEFAULT_SETTINGS 1 (getLine editor 1))
                         blockIDRegex [])
       else copied' = initialCopiedLine editor DEFAULT_SETTINGS 1 (getLine editor 1)
            /\ line' = getLine editor 1.
Proof.
  intros editor.
  apply (lineFormat_applied_to_linked_lines (sampleHost 0 []) editor (js "note")
           DEFAULT_SETTINGS CombinedLines LinkTextFromSettings 1 [] [] world0
           re_trailingWhitespace); reflexivity.
Defined.

(** The claim C8 as written fails in CombinedLines: the second copied
    line is the selected text, although the "from" expression matches
    it and the rule would rewrite it. *)
Lemma lineFormat_not_applied_to_later_combined_lines :
  let host := sampleHost 0 [] in
  let settings :=
    {| linkText := []; copiedLinkText := js "(see {{LINK}})";
       lineFormatFrom := js "\s*$"; lineFormatTo := js " <-";
       removeLeadingWhitespace := true |} in
  carryLines host (editorOf [js "one"; js "two"] (pos 0 0) (pos 1 3) [])
    (js "note") settings CombinedLines LinkTextFromSettings world0
  = (Ok ([js "one ^abcde"; js "two"], [js "on <-"; js "two"]),
     {| randomCalls := 5; clipboardReads := 0 |})
  /\ (forall link,
        composeCopiedLine host settings CombinedLines link (js "two") world0
        = (Ok (js "two <-"), world0))
  /\ js "two" <> js "two <-".
Proof.
  cbn zeta. split; [vm_compute; reflexivity|]. split.
  - intros link. vm_compute. reflexivity.
  - vm_compute. discriminate.
Qed.

(* ================================================================= *)
(** ** Running SeparateLines twice *)

Section SecondRun.
Variable host : Host.
Variable file : TFile host.
Variable settings : CarryForwardPluginSettings.

(** A line that already carries its anchor is kept, and no token is
    drawn for it. *)
Lemma loopBody_existing_anchor editor mode n U C w (blockID : jsstring) re :
  blankShortcut editor n = false ->
  matchRegExp (getLine editor n) blockIDRegex = Some blockID ->
  RegExp_new host (lineFormatFrom settings) = inr re ->
  exists C' w',
    loopBody host editor file settings SeparateLines mode n (U, C) w
    = (Ok (U ++ [getLine editor n], C'), w')
    /\ randomCalls w' = randomCalls w.
Proof.
  intros B A R. unfold loopBody. rewrite B.
  destruct (chooseLinkText_returns host editor settings mode w)
    as [linkText_ [w1 [E Rw]]].
  unfold bind at 1. rewrite E. cbn [isSeparateLines orb isLinkOnly andb negb].
  unfold linkLine. rewrite A. unfold bind.
  rewrite (composeCopiedLine_lineCarry host settings SeparateLines _ _ _ re eq_refl R).
  cbn. do 2 eexists. split; [reflexivity | exact Rw].
Qed.

(** What one round of the first run leaves in [updatedLines], and what
    a second round does with it. *)
Lemma loopBody_twice editor mode n U C w U' C' w' :
  loopBody host editor file settings SeparateLines mode n (U, C) w
  = (Ok (U', C'), w') ->
  exists l',
    U' = U ++ [l']
    /\ (forallb isWhiteSpace l' = false ->
        exists blockID, matchRegExp l' blockIDRegex = Some blockID)
    /\ forall editor2 mode2 U2 C2 w2,
         minLine editor2 = minLine editor ->
         maxLine editor2 = maxLine editor ->
         getLine editor2 n = l' ->
         exists C2' w2',
           loopBody host editor2 file settings SeparateLines mode2 n (U2, C2) w2
           = (Ok (U2 ++ [l'], C2'), w2')
           /\ randomCalls w2' = randomCalls w2.
Proof.
  unfold loopBody at 1.
  destruct (blankShortcut editor n) eqn:B.
  - (* the blank-line shortcut *)
    intros H. injection H as <- _ _.
    exists (getLine editor n). split; [reflexivity|].
    rewrite blankShortcut_spec in B. apply andb_true_iff in B as [Bw Bs].
    split; [intros N; rewrite N in Bw; discriminate Bw|].
    intros editor2 mode2 U2 C2 w2 Hmin Hmax Hl.
    exists (C2 ++ [initialCopiedLine editor2 settings n (getLine editor2 n)]), w2.
    split; [|reflexivity].
    unfold loopBody. rewrite blankShortcut_spec, Hl, Hmin, Hmax, Bw, Bs.
    cbn [andb]. now rewrite <- Hl.
  - (* a linked line *)
    destruct (chooseLinkText_returns host editor settings mode w)
      as [linkText_ [w1 [E _]]].
    unfold bind at 1. rewrite E.
    cbn [isSeparateLines orb isLinkOnly andb negb].
    unfold linkLine.
    destruct (matchRegExp (getLine editor n) blockIDRegex) as [blockID|] eqn:A.
    + (* the anchor was there *)
      unfold bind, composeCopiedLine, newRegExp. cbn [isLinkOnly].
      destruct (RegExp_new host (lineFormatFrom settings)) as [e|re] eqn:R;
        [discriminate|].
      cbn. intros H. injection H as <- _ _.
      exists (getLine editor n). split; [reflexivity|].
      split; [intros _; now exists blockID|].
      intros editor2 mode2 U2 C2 w2 Hmin Hmax Hl.
      rewrite <- Hl.
      apply loopBody_existing_anchor with (blockID := blockID) (re := re).
      * rewrite blankShortcut_spec in *. now rewrite Hl, Hmin, Hmax.
      * now rewrite Hl.
      * exact R.
    + (* a token is drawn and appended *)
      destruct (genID_spec host w1) as [id [w2 [G [L [T _]]]]].
      unfold bind, composeCopiedLine, newRegExp. cbn [isLinkOnly].
      rewrite G.
      destruct (RegExp_new host (lineFormatFrom settings)) as [e|re] eqn:R;
        [discriminate|].
      rewrite replace_trailingWhitespace by now apply anchor_text_noDollar.
      cbn. intros H. injection H as <- _ _.
      exists (trimEnd (getLine editor n) ++ SPACE :: CARET :: id).
      assert (F : matchRegExp (trimEnd (getLine editor n) ++ SPACE :: CARET :: id)
                    blockIDRegex = Some (CARET :: id)).
      { apply blockID_found; [reflexivity | | now apply token_isBlockID].
        intros ->. discriminate L. }
      split; [reflexivity|].
      split; [intros _; now exists (CARET :: id)|].
      intros editor2 mode2 U2 C2 w3 Hmin Hmax Hl.
      rewrite <- Hl.
      apply loopBody_existing_anchor with (blockID := CARET :: id) (re := re).
      * rewrite blankShortcut_spec, Hl.
        change (trimEnd (getLine editor n) ++ SPACE :: CARET :: id)
          with (trimEnd (getLine editor n) ++ [SPACE] ++ CARET :: id).
        rewrite app_assoc, not_blank_with_caret. reflexivity.
      * now rewrite Hl.
      * exact R.
Qed.

Lemma forLines_twice editor mode ns :
  forall U C w U' C' w',
  forLines host editor file settings SeparateLines mode ns (U, C) w
  = (Ok (U', C'), w') ->
  exists ls,
    U' = U ++ ls
    /\ length ls = length ns
    /\ Forall (fun l => forallb isWhiteSpace l = false ->
                        exists blockID, matchRegExp l blockIDRegex = Some blockID) ls
    /\ forall editor2 mode2,
         minLine editor2 = minLine editor ->
         maxLine editor2 = maxLine editor ->
         Forall2 (fun n l => getLine editor2 n = l) ns ls ->
         forall U2 C2 w2,
         exists C2' w2',
           forLines host editor2 file settings SeparateLines mode2 ns (U2, C2) w2
           = (Ok (U2 ++ ls, C2'), w2')
           /\ randomCalls w2' = randomCalls w2.
Proof.
  induction ns as [|n ns IH]; intros U C w U' C' w' H.
  - cbn in H. injection H as <- <- <-.
    exists []. repeat split; auto using app_nil_r.
    intros editor2 mode2 _ _ _ U2 C2 w2. exists C2, w2.
    cbn. now rewrite app_nil_r.
  - cbn [forLines] in H. unfold bind in H.
    destruct (loopBody host editor file settings SeparateLines mode n (U, C) w)
      as [[[U1 C1]|e] w1] eqn:E; [|discriminate].
    destruct (loopBody_twice _ _ _ _ _ _ _ _ _ E) as [l' [-> [A S]]].
    destruct (IH _ _ _ _ _ _ H) as [ls [-> [Len [As Ss]]]].
    exists (l' :: ls). split; [now rewrite <- app_assoc|].
    split; [cbn; now rewrite Len|].
    split; [now constructor|].
    intros editor2 mode2 Hmin Hmax F U2 C2 w2.
    inversion F as [|? ? ? ? Hl F']; subst.
    destruct (S editor2 mode2 U2 C2 w2 Hmin Hmax eq_refl) as [C2a [w2a [E2 R2]]].
    destruct (Ss editor2 mode2 Hmin Hmax F' (U2 ++ [getLine editor2 n]) C2a w2a)
      as [C2b [w2b [E3 R3]]].
    exists C2b, w2b. cbn [forLines]. unfold bind. rewrite E2, E3.
    split; [now rewrite <- app_assoc | congruence].
Qed.
End SecondRun.

Lemma Forall2_seq_nth (P : nat -> jsstring -> Prop) (ls : list jsstring) :
  forall start,
  (forall i, i < length ls -> P (start + i) (nth i ls [])) ->
  Forall2 P (seq start (length ls)) ls.
Proof.
  induction ls as [|l ls IH]; intros start H; cbn [length seq].
  - constructor.
  - constructor.
    + specialize (H 0). cbn in H. rewrite Nat.add_0_r in H. apply H. lia.
    + apply IH. intros i Hi. specialize (H (S i)). cbn in H.
      rewrite Nat.add_succ_r in H. apply H. lia.
Qed.

(** C3. After a SeparateLines run has returned the rewritten lines
    [updated], every one of them that is not blank carries a block ID, and a
    second SeparateLines run over an editor that holds these lines under
    the same selection returns, draws no token, and rewrites the lines to
    themselves.  (The first run may start from any lines; lines without
    anchor are the case of the claim.) *)
Theorem separateLines_second_run_reuses_anchors host file settings
    editor mode w updated copied w1 editor2 mode2 w2 :
  carryLines host editor file settings SeparateLines mode w
  = (Ok (updated, copied), w1) ->
  cursorFrom editor2 = cursorFrom editor ->
  cursorTo editor2 = cursorTo editor ->
  (forall i, i < length updated ->
             getLine editor2 (minLine editor + i) = nth i updated []) ->
  Forall (fun l => forallb isWhiteSpace l = false ->
                   exists blockID, matchRegExp l blockIDRegex = Some blockID)
         updated
  /\ exists copied2 w2',
       carryLines host editor2 file settings SeparateLines mode2 w2
       = (Ok (updated, copied2), w2')
       /\ randomCalls w2' = randomCalls w2.
Proof.
  intros H Hfrom Hto Hlines. unfold carryLines in *.
  destruct (forLines_twice host file settings editor mode _ _ _ _ _ _ _ H)
    as [ls [E [Len [A S]]]].
  cbn [app] in E. subst ls. split; [exact A|].
  assert (Hmin : minLine editor2 = minLine editor)
    by (unfold minLine; now rewrite Hfrom).
  assert (Hmax : maxLine editor2 = maxLine editor)
    by (unfold maxLine; now rewrite Hto).
  assert (Hsel : selectedLines editor2 = selectedLines editor)
    by (unfold selectedLines; now rewrite Hmin, Hmax).
  rewrite Hsel.
  destruct (S editor2 mode2 Hmin Hmax) with (U2 := @nil jsstring)
    (C2 := @nil jsstring) (w2 := w2) as [C2' [w2' [E2 R2]]].
  - unfold selectedLines in *. rewrite length_seq in Len. rewrite <- Len.
    apply Forall2_seq_nth. exact Hlines.
  - exists C2', w2'. now split.
Qed.

Lemma separateLines_second_run_reuses_anchors_witness :
  let updated := [js "alpha ^abcde"; js ""; js "beta ^fghij"] in
  Forall (fun l => forallb isWhiteSpace l = false ->
                   exists blockID, matchRegExp l blockIDRegex = Some blockID)
         updated
  /\ exists copied2 w2',
       carryLines (sampleHost 0 []) (editorOf updated (pos 0 0) (pos 2 4) [])
         (js "note") DEFAULT_SETTINGS SeparateLines LinkTextFromSettings
         {| randomCalls := 10; clipboardReads := 0 |}
       = (Ok (updated, copied2), w2')
       /\ randomCalls w2' = 10.
Proof.
  intros updated.
  apply (separateLines_second_run_reuses_anchors (sampleHost 0 []) (js "note")
           DEFAULT_SETTINGS
           (editorOf [js "alpha"; js ""; js "beta  "] (pos 0 0) (pos 2 4) [])
           LinkTextFromSettings world0 updated
           [js "alph (see [[note#^abcde]])"; js ""; js "beta (see [[note#^fghij]])"]
           {| randomCalls := 10; clipboardReads := 0 |}
           (editorOf updated (pos 0 0) (pos 2 4) [])
           LinkTextFromSettings
           {| randomCalls := 10; clipboardReads := 0 |}).
  - vm_compute. reflexivity.
  - reflexivity.
  - reflexivity.
  - intros i Hi. reflexivity.
Defined.

(* ================================================================= *)
(** ** Where the code leaves the specification *)

Lemma searchFrom_blockID_none prev i (s : jsstring) :
  forallb isBlockIDChar s = true -> searchFrom blockIDAt prev i s = None.
Proof.
  revert prev i. induction s as [|c s IH]; intros prev i H.
  - cbn. destruct prev as [p|]; [|reflexivity].
    cbn. now destruct (isWhiteSpace p || N.eqb p CARET).
  - cbn [forallb] in H. apply andb_true_iff in H as [Hc Hs].
    cbn [searchFrom].
    assert (X : blockIDAt prev (c :: s) = None).
    { unfold blockIDAt. destruct prev as [p|]; [|reflexivity].
      destruct (isWhiteSpace p || N.eqb p CARET); [|reflexivity].
      destruct (N.eqb_spec c CARET) as [->|]; [discriminate Hc | reflexivity]. }
    rewrite X. now apply IH.
Qed.

(** C1 (the code departs from it). A line that consists of an anchor
    token alone, [^] at the start of the line followed by characters of
    [[a-zA-Z0-9-]], is not recognised by [blockIDRegex]: its look-behind
    finds no code unit before the caret. *)
Theorem anchor_at_line_start_not_recognised (id : jsstring) :
  forallb isBlockIDChar id = true ->
  matchRegExp (CARET :: id) blockIDRegex = None.
Proof.
  intros H. unfold matchRegExp, blockIDRegex, search.
  cbn [searchFrom blockIDAt]. now rewrite searchFrom_blockID_none.
Qed.

Lemma anchor_at_line_start_not_recognised_witness :
  matchRegExp (js "^abc12") blockIDRegex = None.
Proof.
  apply (anchor_at_line_start_not_recognised (js "abc12")). reflexivity.
Defined.

(** The command on the line [^abc12]: a second anchor is appended.  On
    [x^^abc12] the token is taken as the anchor, the caret before it
    standing for the white space. *)
Example lone_anchor_line_gets_second_anchor :
  carryLines (sampleHost 0 []) (editorOf [js "^abc12"] (pos 0 0) (pos 0 0) [])
    (js "note") DEFAULT_SETTINGS SeparateLines LinkTextFromSettings world0
  = (Ok ([js "^abc12 ^abcde"], [js "^abc12 (see [[note#^abcde]])"]),
     {| randomCalls := 5; clipboardReads := 0 |})
  /\ matchRegExp (js "x^^abc12") blockIDRegex = Some (js "^abc12").
Proof. split; vm_compute; reflexivity. Qed.

(** C2 (the code departs from it). On the first line of a selection of
    several lines the end bound is [line.length - 1]: the copied text
    starts at the start column and stops one code unit before the end of
    the line. *)
Theorem first_line_slice_drops_last_unit editor n (body : jsstring) c :
  n = minLine editor ->
  n <> maxLine editor ->
  fromCh editor <= length body ->
  sliceToSelection editor n (body ++ [c]) = skipn (fromCh editor) body.
Proof.
  intros Hmin Hmax Hfrom. unfold sliceToSelection, slice.
  rewrite (proj2 (Nat.eqb_eq _ _) Hmin), (proj2 (Nat.eqb_neq _ _) Hmax).
  rewrite length_app. cbn [length].
  destruct (Z.ltb_spec (Z.of_nat (fromCh editor)) 0); [lia|].
  destruct (Z.ltb_spec (Z.of_nat (length body + 1) - 1) 0); [lia|].
  rewrite !Z.min_l by lia.
  rewrite Z.max_l by lia.
  rewrite Nat2Z.id.
  replace (Z.to_nat (Z.of_nat (length body + 1) - 1 - Z.of_nat (fromCh editor)))
    with (length body - fromCh editor) by lia.
  rewrite skipn_app.
  replace (fromCh editor - length body) with 0 by lia.
  cbn [skipn]. rewrite firstn_app, length_skipn.
  rewrite Nat.sub_diag. cbn [firstn]. rewrite app_nil_r.
  apply firstn_all2. rewrite length_skipn. lia.
Qed.

Lemma first_line_slice_drops_last_unit_witness :
  sliceToSelection (editorOf [js "hello"; js "world"] (pos 0 0) (pos 1 5) []) 0
    (js "hell" ++ js "o")
  = skipn 0 (js "hell").
Proof.
  apply (first_line_slice_drops_last_unit
           (editorOf [js "hello"; js "world"] (pos 0 0) (pos 1 5) []) 0
           (js "hell") 111%N).
  - reflexivity.
  - cbn. discriminate.
  - cbn. lia.
Defined.

Example first_line_copied_without_last_unit :
  copyForwardLines (sampleHost 0 [])
    (editorOf [js "hello"; js "world"] (pos 0 0) (pos 1 5) []) (js "note")
    DEFAULT_SETTINGS CombinedLines LinkTextFromSettings world0
  = (Ok [EClipboardWrite (js "hell (see [[note#^abcde]])" ++ [NL] ++ js "world");
         ETransaction (pos 0 0) (pos 1 5) (js "hello ^abcde" ++ [NL] ++ js "world")
           (pos 0 0) (pos 1 5);
         ENotice (js "Copied") None],
     {| randomCalls := 5; clipboardReads := 0 |}).
Proof. vm_compute. reflexivity. Qed.

(** C5 (the code departs from it). In LinkOnly a blank line after the
    first selected line goes through the blank-line shortcut into the
    copied lines: the three-line selection below puts two lines on the
    clipboard.  When the first selected line is the blank one, the
    clipboard gets that line and no link, and no line gets an anchor. *)
Theorem linkOnly_copies_blank_lines :
  copyForwardLines (sampleHost 0 [])
    (editorOf [js "one"; js ""; js "two"] (pos 0 0) (pos 2 3) []) (js "note")
    DEFAULT_SETTINGS LinkOnly LinkTextFromSettings world0
  = (Ok [EClipboardWrite (js "(see [[note#^abcde]])" ++ [NL] ++ js "");
         ETransaction (pos 0 0) (pos 2 3)
           (js "one ^abcde" ++ [NL] ++ js "" ++ [NL] ++ js "two")
           (pos 0 0) (pos 2 3);
         ENotice (js "Copied") None],
     {| randomCalls := 5; clipboardReads := 0 |})
  /\ carryLines (sampleHost 0 [])
       (editorOf [js "one"; js ""; js "two"] (pos 0 0) (pos 2 3) []) (js "note")
       DEFAULT_SETTINGS LinkOnly LinkTextFromSettings world0
     = (Ok ([js "one ^abcde"; js ""; js "two"], [js "(see [[note#^abcde]])"; js ""]),
        {| randomCalls := 5; clipboardReads := 0 |})
  /\ carryLines (sampleHost 0 [])
       (editorOf [js "  "; js "two"] (pos 0 0) (pos 1 3) []) (js "note")
       DEFAULT_SETTINGS LinkOnlyEmbed LinkTextFromSettings world0
     = (Ok ([js "  "; js "two"], [js " "]), world0).
Proof. repeat split; vm_compute; reflexivity. Qed.

(* ================================================================= *)
(** ** More on anchor detection *)

Lemma blockIDAt_some prev (s m : jsstring) :
  blockIDAt prev s = Some m ->
  exists p id,
    prev = Some p /\ (isWhiteSpace p || N.eqb p CARET) = true
    /\ s = CARET :: id /\ id <> [] /\ forallb isBlockIDChar id = true /\ m = s.
Proof.
  unfold blockIDAt. destruct prev as [p|]; [|discriminate].
  destruct (isWhiteSpace p || N.eqb p CARET) eqn:P; [|discriminate].
  destruct s as [|c id]; [discriminate|].
  destruct (N.eqb_spec c CARET) as [->|]; [|discriminate].
  destruct id as [|d id]; [discriminate|].
  cbn [length Nat.eqb negb andb].
  destruct (forallb isBlockIDChar (d :: id)) eqn:F; [|discriminate].
  intros H. injection H as <-.
  exists p, (d :: id). repeat split; auto. discriminate.
Qed.

Lemma searchFrom_blockID_inv (s : jsstring) :
  forall prev i r,
  searchFrom blockIDAt prev i s = Some r ->
  exists body id,
    s = body ++ CARET :: id /\ id <> [] /\ forallb isBlockIDChar id = true
    /\ matched r = CARET :: id /\ index r = i + length body
    /\ ((body = [] /\ exists p, prev = Some p
                      /\ (isWhiteSpace p || N.eqb p CARET) = true)
        \/ exists body' p, body = body' ++ [p]
                      /\ (isWhiteSpace p || N.eqb p CARET) = true).
Proof.
  induction s as [|c s IH]; intros prev i r H.
  - cbn [searchFrom] in H. destruct (blockIDAt prev []) as [m|] eqn:E;
      [|discriminate].
    apply blockIDAt_some in E as [p [id [_ [_ [E _]]]]]. discriminate E.
  - cbn [searchFrom] in H. destruct (blockIDAt prev (c :: s)) as [m|] eqn:E.
    + apply blockIDAt_some in E as [p [id [Hp [Ok_ [Es [Hne [Hid Hm]]]]]]].
      injection H as <-. exists [], id. cbn [app length plainMatch matched index].
      rewrite Nat.add_0_r. repeat split; auto; [congruence|].
      left. split; [reflexivity|]. now exists p.
    + apply IH in H as [body [id [Es [Hne [Hid [Hm [Hi Hp]]]]]]].
      exists (c :: body), id. cbn [app length]. rewrite Es.
      repeat split; auto; [lia|]. right.
      destruct Hp as [[-> [p [Hp Ok_]]] | [body' [p [-> Ok_]]]].
      * injection Hp as <-. now exists [], c.
      * now exists (c :: body'), p.
Qed.

(** X1. [blockIDRegex] finds a block ID in a line exactly when the line
    ends in one code unit that is white space or a caret, then [^], then a
    non-empty run of [[a-zA-Z0-9-]] up to the end; the match is the [^]
    with that run. *)
Theorem blockID_match_iff (s t : jsstring) :
  matchRegExp s blockIDRegex = Some t
  <-> exists body p id,
        s = body ++ p :: CARET :: id
        /\ (isWhiteSpace p || N.eqb p CARET) = true
        /\ id <> [] /\ forallb isBlockIDChar id = true
        /\ t = CARET :: id.
Proof.
  split.
  - unfold matchRegExp, blockIDRegex, search.
    destruct (searchFrom blockIDAt None 0 s) as [r|] eqn:E; [|discriminate].
    cbn [option_map]. intros H. injection H as <-.
    apply searchFrom_blockID_inv in E
      as [body [id [Es [Hne [Hid [Hm [_ Hp]]]]]]].
    destruct Hp as [[_ [p [Hp _]]] | [body' [p [-> Ok_]]]]; [discriminate|].
    exists body', p, id. rewrite <- app_assoc in Es. now repeat split.
  - intros [body [p [id [-> [Ok_ [Hne [Hid ->]]]]]]]. now apply blockID_found.
Qed.

(** X2. Removing the block ID from the copy of an anchored line,
    [copiedLine.replace(blockIDRegex, "")], leaves everything before the
    caret of the token, the code unit in front of it included. *)
Theorem blockID_stripped_from_copy (body id : jsstring) p :
  (isWhiteSpace p || N.eqb p CARET) = true ->
  id <> [] -> forallb isBlockIDChar id = true ->
  replaceRegExp (body ++ p :: CARET :: id) blockIDRegex [] = body ++ [p].
Proof.
  intros Ok_ Hne Hid. unfold replaceRegExp, blockIDRegex, search.
  rewrite searchFrom_blockID by assumption.
  cbn [index matched captures groups plainMatch Nat.add].
  cbn [GetSubstitution substituteFrom app].
  replace (body ++ p :: CARET :: id) with ((body ++ [p]) ++ CARET :: id)
    by (now rewrite <- app_assoc).
  assert (L : S (length body) = length (body ++ [p]))
    by (rewrite length_app; cbn; lia).
  rewrite L.
  rewrite Nat.min_l by (rewrite !length_app; cbn [length]; lia).
  rewrite firstn_exact.
  rewrite skipn_all2 by (rewrite !length_app; cbn [length]; lia).
  now rewrite app_nil_r.
Qed.

Lemma blockID_stripped_from_copy_witness :
  replaceRegExp (js "task" ++ SPACE :: CARET :: js "abc12") blockIDRegex []
  = js "task" ++ [SPACE].
Proof.
  apply (blockID_stripped_from_copy (js "task") (js "abc12") SPACE);
    [reflexivity | discriminate | reflexivity].
Defined.

(* ================================================================= *)
(** ** More on token generation *)

(** X3. For every requested length and every random source, [genID]
    returns, having left its loop through the exit test: the identifier has
    exactly the requested number of code units, each a lowercase letter, a
    digit or a hyphen, and the clipboard is not read. *)
Theorem genID_any_length host n w :
  exists id w',
    genID host n w = (Ok id, w')
    /\ length id = n /\ forallb isTokenChar id = true
    /\ clipboardReads w' = clipboardReads w.
Proof.
  destruct (genID_loop_spec host n n [] w eq_refl) as [id' [w' [E [T [L C]]]]].
  assert (L' : n <= length id') by (apply L; cbn; lia).
  exists (firstn n id'), w'. unfold genID, bind. rewrite E.
  unfold ret. rewrite (slice_prefix id' n L').
  repeat split; auto.
  - rewrite length_firstn. lia.
  - rewrite forallb_forall in *. intros c Hc. apply T.
    rewrite <- (firstn_skipn n id'). apply in_or_app. now left.
Qed.

Lemma charactersAt_in_range k :
  k < 37 -> charactersAt k = [nth k characters 0%N].
Proof.
  intros H. unfold charactersAt.
  destruct (nth_error characters k) as [c|] eqn:E.
  - now rewrite (nth_error_nth _ _ _ E).
  - apply nth_error_None in E. cbn in E. lia.
Qed.

Lemma genID_loop_in_range host :
  (forall k, random host k < 37) ->
  forall fuel length_ (id : jsstring) w,
  length id + fuel = length_ ->
  genID_loop host fuel length_ id w
  = (Ok (id ++ map (fun i => nth (random host (randomCalls w + i)) characters 0%N)
                   (seq 0 fuel)),
     {| randomCalls := randomCalls w + fuel;
        clipboardReads := clipboardReads w |}).
Proof.
  intros R. induction fuel as [|fuel IH]; intros length_ id w L.
  - cbn. rewrite app_nil_r, Nat.add_0_r. now destruct w.
  - cbn [genID_loop]. destruct (Nat.ltb_spec (length id) length_); [|lia].
    unfold bind, drawIndex at 1.
    rewrite IH by (rewrite length_app, charactersAt_in_range by apply R;
                   cbn [length]; lia).
    cbn [randomCalls clipboardReads].
    rewrite charactersAt_in_range by apply R.
    rewrite <- app_assoc. cbn [app seq map].
    rewrite Nat.add_0_r, <- seq_shift, map_map.
    assert (E : map (fun i => nth (random host (S (randomCalls w) + i))
                                characters 0%N) (seq 0 fuel)
                = map (fun i => nth (random host (randomCalls w + S i))
                                  characters 0%N) (seq 0 fuel)).
    { apply map_ext. intros i. do 2 f_equal. lia. }
    rewrite E.
    replace (S (randomCalls w) + fuel) with (randomCalls w + S fuel) by lia.
    reflexivity.
Qed.

(** X4. When every index drawn from [Math.random] is below
    [characters.length] (37), [genID] makes exactly as many draws as the
    length asked for, and the identifier is the characters at the drawn
    indices, in the order of the draws. *)
Theorem genID_draws host n w :
  (forall k, random host k < 37) ->
  genID host n w
  = (Ok (map (fun i => nth (random host (randomCalls w + i)) characters 0%N)
             (seq 0 n)),
     {| randomCalls := randomCalls w + n;
        clipboardReads := clipboardReads w |}).
Proof.
  intros R. unfold genID, bind.
  rewrite (genID_loop_in_range host R n n [] w) by reflexivity.
  cbn [app]. unfold ret. f_equal. f_equal.
  rewrite slice_prefix by (rewrite length_map, length_seq; lia).
  apply firstn_all2. rewrite length_map, length_seq. lia.
Qed.

Lemma genID_draws_witness :
  genID (sampleHost 30 []) 5 world0
  = (Ok (map (fun i => nth (random (sampleHost 30 []) (randomCalls world0 + i))
                         characters 0%N)
             (seq 0 5)),
     {| randomCalls := randomCalls world0 + 5;
        clipboardReads := clipboardReads world0 |}).
Proof.
  apply (genID_draws (sampleHost 30 []) 5 world0).
  intros k. cbn [random sampleHost]. apply Nat.mod_upper_bound. discriminate.
Defined.

(* ================================================================= *)
(** ** The columns of the copied text *)

Lemma slice_nat (l : jsstring) a b :
  slice l (Z.of_nat a) (Z.of_nat b) = firstn (b - a) (skipn a l).
Proof.
  unfold slice.
  destruct (Z.ltb_spec (Z.of_nat a) 0); [lia|].
  destruct (Z.ltb_spec (Z.of_nat b) 0); [lia|].
  destruct (Nat.le_gt_cases a (length l)) as [Ha|Ha].
  - rewrite (Z.min_l (Z.of_nat a)) by lia. rewrite Nat2Z.id.
    destruct (Nat.le_gt_cases b (length l)) as [Hb|Hb].
    + rewrite Z.min_l by lia. f_equal. lia.
    + rewrite Z.min_r by lia.
      rewrite !firstn_all2; [reflexivity | |]; rewrite length_skipn; lia.
  - rewrite (Z.min_r (Z.of_nat a)) by lia. rewrite Nat2Z.id.
    rewrite skipn_all. rewrite (skipn_all2 l) by lia.
    now rewrite !firstn_nil.
Qed.

(** X5. On the last selected line the copied text runs up to the end
    column: from the start column when that line is also the first one (a
    selection within one line is copied exactly, columns [from] to [to]),
    from column 0 otherwise. *)
Theorem last_line_copied_to_end_column editor n (l : jsstring) :
  n = maxLine editor ->
  sliceToSelection editor n l
  = firstn (toCh editor - (if n =? minLine editor then fromCh editor else 0))
      (skipn (if n =? minLine editor then fromCh editor else 0) l).
Proof.
  intros ->. unfold sliceToSelection. rewrite Nat.eqb_refl.
  destruct (maxLine editor =? minLine editor).
  - apply slice_nat.
  - apply (slice_nat l 0).
Qed.

Lemma last_line_copied_to_end_column_witness :
  sliceToSelection (editorOf [js "abcdefg"] (pos 0 2) (pos 0 5) (js "cde")) 0
    (js "abcdefg")
  = firstn (5 - 2) (skipn 2 (js "abcdefg")).
Proof.
  apply (last_line_copied_to_end_column
           (editorOf [js "abcdefg"] (pos 0 2) (pos 0 5) (js "cde")) 0
           (js "abcdefg")).
  reflexivity.
Defined.

Lemma takeWhile_spec p (l : jsstring) :
  forallb p (takeWhile p l) = true
  /\ match skipn (length (takeWhile p l)) l with
     | c :: _ => p c = false
     | [] => True
     end.
Proof.
  induction l as [|c l [A B]]; cbn [takeWhile]; [now split|].
  destruct (p c) eqn:E.
  - cbn [forallb length skipn]. rewrite E, A. now split.
  - cbn. now split.
Qed.

(** X6. With the caret on a line and no range selected, and
    [removeLeadingWhitespace] on, the text that goes on to be copied is
    the line without its leading white space: it does not start with a
    white-space character, and the line is that white space followed by
    it. *)
Theorem caret_copy_has_no_leading_whitespace editor settings n (l : jsstring) :
  minLine editor = maxLine editor ->
  fromCh editor = toCh editor ->
  removeLeadingWhitespace settings = true ->
  n = minLine editor ->
  exists ws,
    forallb isWhiteSpace ws = true
    /\ l = ws ++ initialCopiedLine editor settings n l
    /\ match initialCopiedLine editor settings n l with
       | c :: _ => isWhiteSpace c = false
       | [] => True
       end.
Proof.
  intros Hl Hc Hr Hn.
  unfold initialCopiedLine, stripCondition, sliceCondition.
  rewrite Hr, Hn, <- Hl, Hc, !Nat.eqb_refl. cbn [andb orb negb].
  rewrite strip_leading_whitespace.
  destruct (takeWhile_spec isWhiteSpace l) as [A B].
  exists (takeWhile isWhiteSpace l).
  split; [exact A|]. split; [apply takeWhile_split | exact B].
Qed.

Lemma caret_copy_has_no_leading_whitespace_witness :
  exists ws,
    forallb isWhiteSpace ws = true
    /\ js "  hello"
       = ws ++ initialCopiedLine (editorOf [js "  hello"] (pos 0 4) (pos 0 4) [])
                 DEFAULT_SETTINGS 0 (js "  hello")
    /\ match initialCopiedLine (editorOf [js "  hello"] (pos 0 4) (pos 0 4) [])
               DEFAULT_SETTINGS 0 (js "  hello") with
       | c :: _ => isWhiteSpace c = false
       | [] => True
       end.
Proof.
  apply (caret_copy_has_no_leading_whitespace
           (editorOf [js "  hello"] (pos 0 4) (pos 0 4) []) DEFAULT_SETTINGS 0
           (js "  hello")); reflexivity.
Defined.

(* ================================================================= *)
(** ** What the loop returns *)

Lemma chooseLinkText_world host editor settings mode w :
  exists linkText_ w',
    chooseLinkText host editor settings mode w = (Ok linkText_, w')
    /\ randomCalls w' = randomCalls w
    /\ (mode <> LinkTextFromClipboard -> w' = w).
Proof.
  unfold chooseLinkText.
  destruct mode; cbn; do 2 eexists; repeat split; congruence.
Qed.

Lemma composeCopiedLine_cases host settings copy (link s : jsstring) w :
  (exists c, composeCopiedLine host settings copy link s w = (Ok c, w))
  \/ (exists e,
        composeCopiedLine host settings copy link s w = (Throw e, w)
        /\ isLinkOnly copy = false
        /\ RegExp_new host (lineFormatFrom settings) = inl e).
Proof.
  unfold composeCopiedLine. destruct (isLinkOnly copy).
  - left. eexists. reflexivity.
  - unfold bind, newRegExp.
    destruct (RegExp_new host (lineFormatFrom settings)) as [e|re].
    + right. exists e. now repeat split.
    + left. eexists. reflexivity.
Qed.

Lemma linkLine_cases host file settings copy (l c linkText_ : jsstring) w :
  (exists e w',
     linkLine host file settings copy l c linkText_ w = (Throw e, w')
     /\ isLinkOnly copy = false
     /\ RegExp_new host (lineFormatFrom settings) = inl e)
  \/ (exists l' c' w',
        linkLine host file settings copy l c linkText_ w = (Ok (l', c'), w')
        /\ clipboardReads w' = clipboardReads w
        /\ rewrittenFrom l l'
        /\ (matchRegExp l blockIDRegex <> None -> randomCalls w' = randomCalls w)).
Proof.
  unfold linkLine.
  destruct (matchRegExp l blockIDRegex) as [blockID|] eqn:A.
  - unfold bind.
    destruct (composeCopiedLine_cases host settings copy
                (generateMarkdownLink host file (js "/") (HASH :: blockID) linkText_)
                (replaceRegExp c blockIDRegex []) w)
      as [[c' E] | [e [E [L R]]]]; rewrite E.
    + right. exists l, c', w.
      split; [reflexivity|]. split; [reflexivity|]. split; [now left | reflexivity].
    + left. exists e, w. now repeat split.
  - destruct (genID_spec host w) as [id [w1 [G [L [T Cl]]]]].
    unfold bind. rewrite G. cbv beta iota.
    rewrite replace_trailingWhitespace by now apply anchor_text_noDollar.
    destruct (composeCopiedLine_cases host settings copy
                (generateMarkdownLink host file (js "/") (HASH :: CARET :: id)
                   linkText_) c w1)
      as [[c' E] | [e [E [Lo R]]]]; rewrite E.
    + right. exists (trimEnd l ++ SPACE :: CARET :: id), c', w1.
      split; [reflexivity|]. split; [exact Cl|]. split.
      * right. exists id. now repeat split.
      * intros X. now contradiction X.
    + left. exists e, w1. now repeat split.
Qed.

Lemma loopBody_cases host editor file settings copy mode n U C w :
  (exists e w',
     loopBody host editor file settings copy mode n (U, C) w = (Throw e, w')
     /\ isLinkOnly copy = false
     /\ RegExp_new host (lineFormatFrom settings) = inl e)
  \/ (exists l' cs w',
        loopBody host editor file settings copy mode n (U, C) w
        = (Ok (U ++ [l'], C ++ cs), w')
        /\ length cs
           = (if blankShortcut editor n || negb (isLinkOnly copy)
                 || (n =? minLine editor)
              then 1 else 0)
        /\ (mode <> LinkTextFromClipboard ->
            clipboardReads w' = clipboardReads w)
        /\ rewrittenFrom (getLine editor n) l'
        /\ (l' <> getLine editor n ->
            (isSeparateLines copy || (n =? minLine editor)) = true
            /\ blankShortcut editor n = false)
        /\ (matchRegExp (getLine editor n) blockIDRegex <> None ->
            randomCalls w' = randomCalls w)).
Proof.
  unfold loopBody. destruct (blankShortcut editor n) eqn:B.
  - right. exists (getLine editor n),
      [initialCopiedLine editor settings n (getLine editor n)], w.
    split; [reflexivity|]. split; [reflexivity|].
    split; [reflexivity|]. split; [now left|].
    split; [intros X; now contradiction X | reflexivity].
  - destruct (chooseLinkText_world host editor settings mode w)
      as [linkText_ [w1 [E [Rw Cw]]]].
    unfold bind. rewrite E. cbv beta iota.
    destruct (isSeparateLines copy || (n =? minLine editor)) eqn:G.
    + destruct (linkLine_cases host file settings copy (getLine editor n)
                  (initialCopiedLine editor settings n (getLine editor n))
                  linkText_ w1)
        as [[e [w' [E' [L R]]]] | [l' [c' [w' [E' [Cl [S Rn]]]]]]];
        rewrite E'; cbv beta iota.
      * left. exists e, w'. now repeat split.
      * right.
        exists l',
          (if negb (isLinkOnly copy && negb (n =? minLine editor))
           then [c'] else []), w'.
        split.
        { unfold ret.
          destruct (negb (isLinkOnly copy && negb (n =? minLine editor)));
            [reflexivity | now rewrite app_nil_r]. }
        split; [now destruct (isLinkOnly copy), (n =? minLine editor)|].
        split; [intros M; rewrite Cl; now rewrite (Cw M)|].
        split; [exact S|].
        split; [intros _; now split|].
        intros A. rewrite (Rn A). exact Rw.
    + right. unfold ret.
      exists (getLine editor n),
        (if negb (isLinkOnly copy && negb (n =? minLine editor))
         then [initialCopiedLine editor settings n (getLine editor n)] else []),
        w1.
      split.
      { destruct (negb (isLinkOnly copy && negb (n =? minLine editor)));
          [reflexivity | now rewrite app_nil_r]. }
      split; [now destruct (isLinkOnly copy), (n =? minLine editor)|].
      split; [intros M; now rewrite (Cw M)|].
      split; [now left|].
      split; [intros X; now contradiction X|].
      intros _. exact Rw.
Qed.

Section LoopResults.
Variable host : Host.
Variable editor : Editor.
Variable file : TFile host.
Variable settings : CarryForwardPluginSettings.
Variable copy : CopyTypes.
Variable mode : Mode.

Lemma forLines_cases ns :
  forall U C w,
  (exists e w',
     forLines host editor file settings copy mode ns (U, C) w = (Throw e, w')
     /\ isLinkOnly copy = false
     /\ RegExp_new host (lineFormatFrom settings) = inl e)
  \/ (exists ls cs w',
        forLines host editor file settings copy mode ns (U, C) w
        = (Ok (U ++ ls, C ++ cs), w')
        /\ length cs = length (filter (copiesLine editor copy) ns)
        /\ (mode <> LinkTextFromClipboard ->
            clipboardReads w' = clipboardReads w)
        /\ Forall2 (fun n l' =>
                      rewrittenFrom (getLine editor n) l'
                      /\ (l' <> getLine editor n ->
                          (isSeparateLines copy || (n =? minLine editor)) = true
                          /\ blankShortcut editor n = false))
             ns ls
        /\ (Forall (fun n => matchRegExp (getLine editor n) blockIDRegex <> None)
              ns ->
            randomCalls w' = randomCalls w)).
Proof.
  induction ns as [|n ns IH]; intros U C w.
  - right. exists [], [], w. cbn. rewrite !app_nil_r.
    repeat split; auto.
  - cbn [forLines]. unfold bind.
    destruct (loopBody_cases host editor file settings copy mode n U C w)
      as [[e [w1 [E [L R]]]]
         | [l' [cs [w1 [E [Lc [Cl [S [G Rn]]]]]]]]]; rewrite E.
    + left. exists e, w1. now repeat split.
    + destruct (IH (U ++ [l']) (C ++ cs) w1)
        as [[e [w2 [E2 [L R]]]]
           | [ls [cs2 [w2 [E2 [Lc2 [Cl2 [F Rn2]]]]]]]]; rewrite E2.
      * left. exists e, w2. now repeat split.
      * right. exists (l' :: ls), (cs ++ cs2), w2.
        split; [now rewrite <- !app_assoc|].
        split.
        { rewrite length_app, Lc, Lc2. cbn [filter]. unfold copiesLine at 2.
          now destruct (blankShortcut editor n || negb (isLinkOnly copy)
                        || (n =? minLine editor)). }
        split; [intros X; rewrite (Cl2 X); now apply Cl|].
        split; [constructor; [now split | exact F]|].
        intros A. inversion A as [|? ? A1 A2]; subst.
        rewrite (Rn2 A2). now apply Rn.
Qed.

(** X7. When the loop returns, there is one rewritten line for each
    selected line, and each is its source line as it was or, for a source
    line without block ID, the source line with its trailing white space
    replaced by a space and a new six-character token: the text in front is
    never touched, and a line that has an anchor never gets a second one. *)
Theorem rewritten_lines_keep_their_text w updated copied w' :
  carryLines host editor file settings copy mode w = (Ok (updated, copied), w') ->
  length updated = S (maxLine editor) - minLine editor
  /\ Forall2 (fun n l' => rewrittenFrom (getLine editor n) l')
       (selectedLines editor) updated.
Proof.
  unfold carryLines. intros H.
  destruct (forLines_cases (selectedLines editor) [] [] w)
    as [[e [w1 [E _]]] | [ls [cs [w1 [E [_ [_ [F _]]]]]]]];
    rewrite E in H; [discriminate|].
  cbn [app] in H. injection H as <- _ _.
  split.
  - rewrite <- (Forall2_length F). unfold selectedLines. apply length_seq.
  - eapply Forall2_impl; [|exact F]. now intros n l' [A _].
Qed.

(** X8. A rewritten line differs from its source line only where the
    link gate lets it: the copy mode is SeparateLines or the line is the
    first of the selection, and the line did not go through the blank-line
    shortcut.  In CombinedLines, LinkOnly and LinkOnlyEmbed every line
    after the first is written back as it was. *)
Theorem only_gated_lines_are_rewritten w updated copied w' :
  carryLines host editor file settings copy mode w = (Ok (updated, copied), w') ->
  Forall2 (fun n l' =>
             l' <> getLine editor n ->
             (copy = SeparateLines \/ n = minLine editor)
             /\ blankShortcut editor n = false)
    (selectedLines editor) updated.
Proof.
  unfold carryLines. intros H.
  destruct (forLines_cases (selectedLines editor) [] [] w)
    as [[e [w1 [E _]]] | [ls [cs [w1 [E [_ [_ [F _]]]]]]]];
    rewrite E in H; [discriminate|].
  cbn [app] in H. injection H as <- _ _.
  eapply Forall2_impl; [|exact F].
  intros n l' [_ G] D. destruct (G D) as [G1 G2]. split; [|exact G2].
  apply orb_true_iff in G1 as [G1|G1].
  - left. now destruct copy.
  - right. now apply Nat.eqb_eq.
Qed.

(** X9. When every selected line already carries a block ID, the loop
    draws no token and the rewritten lines are the source lines. *)
Theorem anchored_selection_is_left_alone w updated copied w' :
  carryLines host editor file settings copy mode w = (Ok (updated, copied), w') ->
  Forall (fun n => matchRegExp (getLine editor n) blockIDRegex <> None)
    (selectedLines editor) ->
  updated = map (getLine editor) (selectedLines editor)
  /\ randomCalls w' = randomCalls w.
Proof.
  unfold carryLines. intros H A.
  destruct (forLines_cases (selectedLines editor) [] [] w)
    as [[e [w1 [E _]]] | [ls [cs [w1 [E [_ [_ [F Rn]]]]]]]];
    rewrite E in H; [discriminate|].
  cbn [app] in H. injection H as <- _ <-.
  split; [|now apply Rn].
  clear E Rn. induction F as [|n l' ns ls [S _] F IH]; [reflexivity|].
  inversion A as [|? ? A1 A2]; subst. cbn [map]. f_equal; [|now apply IH].
  destruct S as [->|[id [_ [_ [N _]]]]]; [reflexivity | contradiction].
Qed.

(** X10. The copied lines are counted by the selected lines that the
    blank-line shortcut passes through, plus, in SeparateLines and
    CombinedLines, every other selected line, and in LinkOnly and
    LinkOnlyEmbed, the first line only.  So the two line-carry modes copy
    exactly one line for each selected line. *)
Theorem copied_lines_count w updated copied w' :
  carryLines host editor file settings copy mode w = (Ok (updated, copied), w') ->
  length copied
  = length (filter (copiesLine editor copy) (selectedLines editor))
  /\ (isLinkOnly copy = false ->
      length copied = S (maxLine editor) - minLine editor).
Proof.
  unfold carryLines. intros H.
  destruct (forLines_cases (selectedLines editor) [] [] w)
    as [[e [w1 [E _]]] | [ls [cs [w1 [E [Lc _]]]]]];
    rewrite E in H; [discriminate|].
  cbn [app] in H. injection H as _ <- _.
  split; [exact Lc|]. intros L. rewrite Lc.
  rewrite forallb_filter_id; [unfold selectedLines; apply length_seq|].
  apply forallb_forall. intros n _.
  unfold copiesLine. rewrite L. cbn [negb]. now rewrite orb_true_r.
Qed.

(** X11. The clipboard is read only when the link text comes from it: in
    the other two link-text modes the loop makes no [readText] call. *)
Theorem clipboard_read_only_in_clipboard_mode w updated copied w' :
  carryLines host editor file settings copy mode w = (Ok (updated, copied), w') ->
  mode <> LinkTextFromClipboard ->
  clipboardReads w' = clipboardReads w.
Proof.
  unfold carryLines. intros H M.
  destruct (forLines_cases (selectedLines editor) [] [] w)
    as [[e [w1 [E _]]] | [ls [cs [w1 [E [_ [Cl _]]]]]]];
    rewrite E in H; [discriminate|].
  injection H as _ _ <-. now apply Cl.
Qed.

(** X12. With the link text taken from the settings or from the
    selection (the clipboard is then not read), in LinkOnly and
    LinkOnlyEmbed, and in every copy mode when the three replacements of
    [validateRegex] leave the "from" pattern as it is (it holds no
    backslash-n, backslash-t or backslash-r pair, so the text tested is
    the very text the loop compiles), the command does not throw: it shows
    the warning and does nothing else, or it issues exactly one clipboard
    write and one transaction over the selected lines, with the selection
    put back. *)
Theorem command_returns w :
  mode <> LinkTextFromClipboard ->
  isLinkOnly copy = true
  \/ updatedRegexString (lineFormatFrom settings) = lineFormatFrom settings ->
  copyForwardLines host editor file settings copy mode w
  = (Ok [invalidFromNotice (validateRegex host (lineFormatFrom settings))], w)
  \/ exists updated copied w',
       carryLines host editor file settings copy mode w
       = (Ok (updated, copied), w')
       /\ copyForwardLines host editor file settings copy mode w
          = (Ok ([EClipboardWrite (join [NL] copied);
                  ETransaction (pos (minLine editor) 0)
                    (pos (maxLine editor)
                         (length (getLine editor (maxLine editor))))
                    (join [NL] updated)
                    (cursorFrom editor) (cursorTo editor)]
                 ++ (if writeTextResolves host
                     then [ENotice (js "Copied") None] else [])),
             w').
Proof.
  intros _ H. unfold copyForwardLines.
  destruct (valid (validateRegex host (lineFormatFrom settings))) eqn:V;
    [|left; reflexivity].
  right. cbn [negb]. unfold bind, carryLines.
  destruct (forLines_cases (selectedLines editor) [] [] w)
    as [[e [w1 [E [L R]]]] | [ls [cs [w1 [E _]]]]]; rewrite E.
  - exfalso. destruct H as [H|H]; [congruence|].
    unfold validateRegex in V. rewrite H, R in V. discriminate V.
  - exists ls, cs, w1. split; reflexivity.
Qed.
End LoopResults.

Lemma rewritten_lines_keep_their_text_witness :
  let editor :=
    editorOf [js "alpha  "; js ""; js "beta ^abc12"] (pos 0 0) (pos 2 4) [] in
  let updated := [js "alpha ^abcde"; js ""; js "beta ^abc12"] in
  length updated = S (maxLine editor) - minLine editor
  /\ Forall2 (fun n l' => rewrittenFrom (getLine editor n) l')
       (selectedLines editor) updated.
Proof.
  intros editor updated.
  apply (rewritten_lines_keep_their_text (sampleHost 0 []) editor (js "note")
           DEFAULT_SETTINGS SeparateLines LinkTextFromSettings world0 updated
           [js "alpha (see [[note#^abcde]])"; js "";
            js "beta (see [[note#^abc12]])"]
           {| randomCalls := 5; clipboardReads := 0 |}).
  vm_compute. reflexivity.
Defined.

Lemma only_gated_lines_are_rewritten_witness :
  let editor := editorOf [js "alpha"; js "beta"] (pos 0 0) (pos 1 4) [] in
  Forall2 (fun n l' =>
             l' <> getLine editor n ->
             (CombinedLines = SeparateLines \/ n = minLine editor)
             /\ blankShortcut editor n = false)
    (selectedLines editor) [js "alpha ^abcde"; js "beta"].
Proof.
  intros editor.
  apply (only_gated_lines_are_rewritten (sampleHost 0 []) editor (js "note")
           DEFAULT_SETTINGS CombinedLines LinkTextFromSettings world0
           [js "alpha ^abcde"; js "beta"]
           [js "alph (see [[note#^abcde]])"; js "beta"]
           {| randomCalls := 5; clipboardReads := 0 |}).
  vm_compute. reflexivity.
Defined.

Lemma anchored_selection_is_left_alone_witness :
  let editor :=
    editorOf [js "alpha ^a1"; js "beta ^b-2"] (pos 0 0) (pos 1 4) [] in
  [js "alpha ^a1"; js "beta ^b-2"] = map (getLine editor) (selectedLines editor)
  /\ randomCalls world0 = randomCalls world0.
Proof.
  intros editor.
  apply (anchored_selection_is_left_alone (sampleHost 0 []) editor (js "note")
           DEFAULT_SETTINGS SeparateLines LinkTextFromSettings world0
           [js "alpha ^a1"; js "beta ^b-2"]
           [js "alpha (see [[note#^a1]])"; js "beta (see [[note#^b-2]])"]
           world0).
  - vm_compute. reflexivity.
  - repeat constructor; vm_compute; discriminate.
Defined.

Lemma copied_lines_count_witness :
  let editor := editorOf [js "alpha"; js ""; js "beta"] (pos 0 0) (pos 2 4) [] in
  length [js "(see [[note#^abcde]])"; js ""]
  = length (filter (copiesLine editor LinkOnly) (selectedLines editor))
  /\ (isLinkOnly LinkOnly = false ->
      length [js "(see [[note#^abcde]])"; js ""]
      = S (maxLine editor) - minLine editor).
Proof.
  intros editor.
  apply (copied_lines_count (sampleHost 0 []) editor (js "note")
           DEFAULT_SETTINGS LinkOnly LinkTextFromSettings world0
           [js "alpha ^abcde"; js ""; js "beta"]
           [js "(see [[note#^abcde]])"; js ""]
           {| randomCalls := 5; clipboardReads := 0 |}).
  vm_compute. reflexivity.
Defined.

Lemma clipboard_read_only_in_clipboard_mode_witness :
  clipboardReads {| randomCalls := 5; clipboardReads := 0 |}
  = clipboardReads world0.
Proof.
  apply (clipboard_read_only_in_clipboard_mode (sampleHost 0 (js "clip"))
           (editorOf [js "alpha"; js "beta"] (pos 0 0) (pos 1 4) (js "alpha"))
           (js "note") DEFAULT_SETTINGS CombinedLines LinkTextFromSelection world0
           [js "alpha ^abcde"; js "beta"]
           [js "alph (see [[note#^abcde|alpha]])"; js "beta"]
           {| randomCalls := 5; clipboardReads := 0 |}).
  - vm_compute. reflexivity.
  - discriminate.
Defined.

Lemma command_returns_witness :
  let host := sampleHost 0 [] in
  let editor := editorOf [js "alpha"] (pos 0 0) (pos 0 0) [] in
  copyForwardLines host editor (js "note") DEFAULT_SETTINGS SeparateLines
    LinkTextFromSettings world0
  = (Ok [invalidFromNotice
           (validateRegex host (lineFormatFrom DEFAULT_SETTINGS))], world0)
  \/ exists updated copied w',
       carryLines host editor (js "note") DEFAULT_SETTINGS SeparateLines
         LinkTextFromSettings world0
       = (Ok (updated, copied), w')
       /\ copyForwardLines host editor (js "note") DEFAULT_SETTINGS SeparateLines
            LinkTextFromSettings world0
          = (Ok ([EClipboardWrite (join [NL] copied);
                  ETransaction (pos (minLine editor) 0)
                    (pos (maxLine editor)
                         (length (getLine editor (maxLine editor))))
                    (join [NL] updated)
                    (cursorFrom editor) (cursorTo editor)]
                 ++ (if writeTextResolves host
                     then [ENotice (js "Copied") None] else [])),
             w').
Proof.
  intros host editor.
  apply (command_returns host editor (js "note") DEFAULT_SETTINGS SeparateLines
           LinkTextFromSettings world0).
  - discriminate.
  - right. reflexivity.
Defined.

(* ================================================================= *)
(** ** The pattern that [validateRegex] tests *)

Lemma replaceEscapes_cons x r a b (s : jsstring) :
  replaceEscapes x r (a :: b :: s)
  = if N.eqb a BACKSLASH && N.eqb b x then r :: replaceEscapes x r s
    else a :: replaceEscapes x r (b :: s).
Proof. reflexivity. Qed.

Lemma hasEscape_cons x a b (s : jsstring) :
  hasEscape x (a :: b :: s)
  = (N.eqb a BACKSLASH && N.eqb b x) || hasEscape x (b :: s).
Proof. reflexivity. Qed.

Lemma hasEscape_tail x a (s : jsstring) :
  hasEscape x (a :: s) = false -> hasEscape x s = false.
Proof.
  destruct s as [|b s]; [reflexivity|].
  rewrite hasEscape_cons. intros H. now apply orb_false_iff in H as [_ H].
Qed.

Lemma replaceEscapes_none x r (s : jsstring) :
  hasEscape x s = false -> replaceEscapes x r s = s.
Proof.
  induction s as [|a s IH]; [reflexivity|].
  destruct s as [|b s]; [reflexivity|].
  rewrite hasEscape_cons, replaceEscapes_cons. intros H.
  apply orb_false_iff in H as [H1 H2]. rewrite H1. now rewrite IH.
Qed.

(** The first code unit of a replaced text: the replacement unit, or the
    first unit of the source. *)
Lemma replaceEscapes_head y r' a (s : jsstring) :
  exists t, replaceEscapes y r' (a :: s) = r' :: t
            \/ replaceEscapes y r' (a :: s) = a :: t.
Proof.
  destruct s as [|b s]; [exists []; now right|].
  rewrite replaceEscapes_cons.
  destruct (N.eqb a BACKSLASH && N.eqb b y); eexists; [left|right]; reflexivity.
Qed.

(** Replacing the pairs of one letter brings in no pair of a letter [x],
    when the replacement unit is neither the backslash nor [x]. *)
Lemma replaceEscapes_keeps_none x y r' (s : jsstring) :
  N.eqb r' BACKSLASH = false -> N.eqb r' x = false ->
  hasEscape x s = false ->
  hasEscape x (replaceEscapes y r' s) = false.
Proof.
  intros R1 R2. remember (length s) as n eqn:L.
  revert s L. induction n as [n IH] using lt_wf_ind. intros s L H.
  destruct s as [|a [|b s]]; [reflexivity | reflexivity|].
  rewrite replaceEscapes_cons.
  rewrite hasEscape_cons in H. apply orb_false_iff in H as [H1 H2].
  destruct (N.eqb a BACKSLASH && N.eqb b y) eqn:M.
  - assert (T : hasEscape x (replaceEscapes y r' s) = false).
    { apply (IH (length s)); [subst n; cbn; lia | reflexivity |].
      now apply hasEscape_tail in H2. }
    destruct (replaceEscapes y r' s) as [|c t] eqn:E; [reflexivity|].
    rewrite hasEscape_cons, R1, T. reflexivity.
  - assert (T : hasEscape x (replaceEscapes y r' (b :: s)) = false).
    { apply (IH (length (b :: s))); [subst n; cbn; lia | reflexivity | exact H2]. }
    destruct (replaceEscapes_head y r' b s) as [t [E|E]]; rewrite E in *.
    + rewrite hasEscape_cons, T, R2, andb_false_r. reflexivity.
    + rewrite hasEscape_cons, T, H1. reflexivity.
Qed.

(** After the pairs of [x] are replaced, none is left. *)
Lemma replaceEscapes_leaves_none x r (s : jsstring) :
  N.eqb r BACKSLASH = false -> N.eqb r x = false ->
  hasEscape x (replaceEscapes x r s) = false.
Proof.
  intros R1 R2. remember (length s) as n eqn:L.
  revert s L. induction n as [n IH] using lt_wf_ind. intros s L.
  destruct s as [|a [|b s]]; [reflexivity | reflexivity|].
  rewrite replaceEscapes_cons.
  destruct (N.eqb a BACKSLASH && N.eqb b x) eqn:M.
  - assert (T : hasEscape x (replaceEscapes x r s) = false)
      by (apply (IH (length s)); [subst n; cbn; lia | reflexivity]).
    destruct (replaceEscapes x r s) as [|c t] eqn:E; [reflexivity|].
    rewrite hasEscape_cons, R1, T. reflexivity.
  - assert (T : hasEscape x (replaceEscapes x r (b :: s)) = false)
      by (apply (IH (length (b :: s))); [subst n; cbn; lia | reflexivity]).
    destruct (replaceEscapes_head x r b s) as [t [E|E]]; rewrite E in *.
    + rewrite hasEscape_cons, T, R2, andb_false_r. reflexivity.
    + rewrite hasEscape_cons, T, M. reflexivity.
Qed.

(** X13. The text that [validateRegex] tests holds no backslash-n,
    backslash-t or backslash-r pair any more, and preparing it a second time
    changes nothing: the three replacements are idempotent together. *)
Theorem updatedRegexString_idempotent (regexString : jsstring) :
  hasEscape 110 (updatedRegexString regexString) = false
  /\ hasEscape 116 (updatedRegexString regexString) = false
  /\ hasEscape 114 (updatedRegexString regexString) = false
  /\ updatedRegexString (updatedRegexString regexString)
     = updatedRegexString regexString.
Proof.
  assert (N1 : hasEscape 110 (updatedRegexString regexString) = false).
  { unfold updatedRegexString.
    do 2 (apply replaceEscapes_keeps_none; [reflexivity | reflexivity |]).
    now apply replaceEscapes_leaves_none. }
  assert (N2 : hasEscape 116 (updatedRegexString regexString) = false).
  { unfold updatedRegexString.
    apply replaceEscapes_keeps_none; [reflexivity | reflexivity |].
    now apply replaceEscapes_leaves_none. }
  assert (N3 : hasEscape 114 (updatedRegexString regexString) = false).
  { unfold updatedRegexString. now apply replaceEscapes_leaves_none. }
  repeat split; auto.
  unfold updatedRegexString at 1.
  now rewrite (replaceEscapes_none _ _ _ N1), (replaceEscapes_none _ _ _ N2),
    (replaceEscapes_none _ _ _ N3).
Qed.

(* ================================================================= *)
(** ** The settings tab *)

Section SettingTabFacts.
Variable host : Host.

Lemma onChange_keeps_from_and_to tab c :
  lineFormatFrom (tabSettings tab) <> [] ->
  lineFormatTo (tabSettings tab) <> [] ->
  lineFormatFrom (tabSettings (onChange host tab c)) <> []
  /\ lineFormatTo (tabSettings (onChange host tab c)) <> []
  /\ savedData (onChange host tab c)
     = saveSettings (tabSettings (onChange host tab c)).
Proof.
  intros F T. destruct c as [v|v|v|v|v]; cbn; try (repeat split; assumption).
  - unfold onChangeFrom. destruct v as [|c v]; cbn.
    + repeat split; [discriminate | assumption].
    + repeat split; [discriminate | assumption].
  - unfold onChangeTo. destruct v as [|c v]; cbn.
    + repeat split; [assumption | discriminate].
    + repeat split; [assumption | discriminate].
Qed.

(** X14. Whatever is typed into the controls of the settings tab, in any
    order, the stored "from" pattern and "to" template are never the empty
    string (an emptied field puts the default back), and after the last
    edit the data saved is the settings in use. *)
Theorem from_and_to_never_stored_empty (changes : list Change) tab :
  lineFormatFrom (tabSettings tab) <> [] ->
  lineFormatTo (tabSettings tab) <> [] ->
  lineFormatFrom (tabSettings (fold_left (onChange host) changes tab)) <> []
  /\ lineFormatTo (tabSettings (fold_left (onChange host) changes tab)) <> []
  /\ (changes <> [] ->
      savedData (fold_left (onChange host) changes tab)
      = saveSettings (tabSettings (fold_left (onChange host) changes tab))).
Proof.
  induction changes as [|c changes IH] using rev_ind; intros F T.
  - cbn. repeat split; auto. intros X. now contradiction X.
  - destruct (IH F T) as [F' [T' _]].
    rewrite fold_left_app. cbn [fold_left].
    destruct (onChange_keeps_from_and_to
                (fold_left (onChange host) changes tab) c F' T') as [A [B C]].
    repeat split; auto.
Qed.

(** X15. After a non-empty text is typed into the "From" field, that text
    is the stored pattern, and the field is marked invalid exactly when
    the command, run with the settings of the tab, stops at the warning
    about the pattern (in every copy mode and link-text mode). *)
Theorem invalid_mark_agrees_with_command (value : jsstring) tab
    editor file copy mode w :
  value <> [] ->
  lineFormatFrom (tabSettings (onChangeFrom host value tab)) = value
  /\ (fromToInvalid (onChangeFrom host value tab) = true
      <-> copyForwardLines host editor file
            (tabSettings (onChangeFrom host value tab)) copy mode w
          = (Ok [invalidFromNotice (validateRegex host value)], w)).
Proof.
  intros V. destruct value as [|c v]; [now contradiction V|].
  unfold onChangeFrom. cbn [emptyString tabSettings fromToInvalid lineFormatFrom].
  split; [reflexivity|].
  unfold copyForwardLines. cbn [lineFormatFrom].
  destruct (valid (validateRegex host (c :: v))); cbn [negb].
  - split; [discriminate|].
    unfold bind.
    match goal with
    | |- context [carryLines ?h ?e ?f ?s ?c ?m w] =>
        destruct (carryLines h e f s c m w) as [[[U C]|e'] w']
    end; discriminate.
  - split; reflexivity.
Qed.

(** X16. Emptying the "From" field puts the default pattern back but
    does not look at the mark: after an invalid pattern was typed and the
    field then emptied, the field still carries the class [invalid],
    although the stored pattern is the default; the mark is right again
    when the tab is displayed anew. *)
Theorem emptied_from_field_keeps_its_mark (value : jsstring) tab :
  value <> [] ->
  valid (validateRegex host value) = false ->
  valid (validateRegex host (lineFormatFrom DEFAULT_SETTINGS)) = true ->
  lineFormatFrom (tabSettings (onChangeFrom host [] (onChangeFrom host value tab)))
  = lineFormatFrom DEFAULT_SETTINGS
  /\ fromToInvalid (onChangeFrom host [] (onChangeFrom host value tab)) = true
  /\ fromToInvalid
       (display host
          (tabSettings (onChangeFrom host [] (onChangeFrom host value tab)))
          (savedData (onChangeFrom host [] (onChangeFrom host value tab))))
     = false.
Proof.
  intros V I D. destruct value as [|c v]; [now contradiction V|].
  unfold onChangeFrom, display.
  cbn [emptyString tabSettings fromToInvalid lineFormatFrom savedData].
  rewrite I. cbn [negb]. rewrite D. now repeat split.
Qed.
End SettingTabFacts.

Lemma from_and_to_never_stored_empty_witness :
  let tab := display (sampleHost 0 []) DEFAULT_SETTINGS None in
  let changes := [ChangeFrom (js "("); ChangeTo []; ChangeFrom []] in
  lineFormatFrom
    (tabSettings (fold_left (onChange (sampleHost 0 [])) changes tab)) <> []
  /\ lineFormatTo
       (tabSettings (fold_left (onChange (sampleHost 0 [])) changes tab)) <> []
  /\ (changes <> [] ->
      savedData (fold_left (onChange (sampleHost 0 [])) changes tab)
      = saveSettings
          (tabSettings (fold_left (onChange (sampleHost 0 [])) changes tab))).
Proof.
  intros tab changes.
  apply (from_and_to_never_stored_empty (sampleHost 0 []) changes tab);
    cbn; discriminate.
Defined.

Lemma invalid_mark_agrees_with_command_witness :
  let host := sampleHost 0 [] in
  let tab := display host DEFAULT_SETTINGS None in
  let editor := editorOf [js "alpha"] (pos 0 0) (pos 0 0) [] in
  lineFormatFrom (tabSettings (onChangeFrom host (js "(") tab)) = js "("
  /\ (fromToInvalid (onChangeFrom host (js "(") tab) = true
      <-> copyForwardLines host editor (js "note")
            (tabSettings (onChangeFrom host (js "(") tab))
            LinkOnly LinkTextFromSettings world0
          = (Ok [invalidFromNotice (validateRegex host (js "("))], world0)).
Proof.
  intros host tab editor.
  apply (invalid_mark_agrees_with_command host (js "(") tab editor (js "note")
           LinkOnly LinkTextFromSettings world0).
  cbn. discriminate.
Defined.

Lemma emptied_from_field_keeps_its_mark_witness :
  let host := sampleHost 0 [] in
  let tab := display host DEFAULT_SETTINGS None in
  lineFormatFrom
    (tabSettings (onChangeFrom host [] (onChangeFrom host (js "(") tab)))
  = lineFormatFrom DEFAULT_SETTINGS
  /\ fromToInvalid (onChangeFrom host [] (onChangeFrom host (js "(") tab)) = true
  /\ fromToInvalid
       (display host
          (tabSettings (onChangeFrom host [] (onChangeFrom host (js "(") tab)))
          (savedData (onChangeFrom host [] (onChangeFrom host (js "(") tab))))
     = false.
Proof.
  intros host tab.
  apply (emptied_from_field_keeps_its_mark host (js "(") tab).
  - cbn. discriminate.
  - reflexivity.
  - reflexivity.
Defined.

(* ================================================================= *)
(** ** The commands *)

(** X17. For every copy mode and every link-text mode, [onload]
    registers exactly one command whose callback runs the transform in
    that pair of modes (the modes left out of a call being the defaults of
    [copyForwardLines]); the host finds that command under its id, so no
    other command shares the id. *)
Theorem one_command_for_each_pair_of_modes (copy : CopyTypes) (mode : Mode) :
  exists c,
    commandsFor copy mode = [c]
    /\ findCommand (commandId c) = Some c
    /\ forall host settings editor file,
         editorCallback host settings c editor file
         = copyForwardLines host editor file settings copy mode.
Proof.
  destruct copy, mode; eexists;
    (split; [reflexivity | split; [reflexivity | intros; reflexivity]]).
Qed.

(* ================================================================= *)
(** ** Loading and saving *)

Lemma eqb_eq (a b : jsstring) : JS.eqb a b = true <-> a = b.
Proof.
  revert b. induction a as [|x a IH]; intros [|y b]; cbn;
    try (split; [discriminate | discriminate]); [now split|].
  rewrite andb_true_iff, N.eqb_eq, IH.
  split; [intros [-> ->]; reflexivity | intros H; injection H; auto].
Qed.

Lemma eqb_refl (a : jsstring) : JS.eqb a a = true.
Proof. now apply eqb_eq. Qed.

Lemma getProperty_setProperty k k' v (o : JSObject) :
  getProperty k (setProperty k' v o)
  = if JS.eqb k k' then Some v else getProperty k o.
Proof.
  induction o as [|[k0 v0] o IH]; cbn [setProperty getProperty].
  - now destruct (JS.eqb k k').
  - destruct (JS.eqb k' k0) eqn:E0; cbn [getProperty].
    + apply eqb_eq in E0. subst k0. now destruct (JS.eqb k k').
    + destruct (JS.eqb k k0) eqn:E1.
      * destruct (JS.eqb k k') eqn:E2; [|reflexivity].
        apply eqb_eq in E1, E2. subst. now rewrite eqb_refl in E0.
      * exact IH.
Qed.

Lemma getProperty_assign k (s : JSObject) :
  distinctKeys s = true ->
  forall t,
  getProperty k (fold_left (fun t kv => assignProperty (fst kv) (snd kv) t) s t)
  = if JS.eqb k (js "__proto__") then getProperty k t
    else match getProperty k s with
         | Some v => Some v
         | None => getProperty k t
         end.
Proof.
  induction s as [|[k1 v1] s IH]; intros D t.
  - cbn [fold_left getProperty]. now destruct (JS.eqb k (js "__proto__")).
  - cbn [distinctKeys] in D.
    destruct (getProperty k1 s) eqn:G; [discriminate|].
    cbn [fold_left fst snd getProperty]. rewrite (IH D).
    unfold assignProperty.
    destruct (JS.eqb k (js "__proto__")) eqn:P.
    + destruct (JS.eqb k1 (js "__proto__")) eqn:P1; [reflexivity|].
      rewrite getProperty_setProperty.
      destruct (JS.eqb k k1) eqn:E; [|reflexivity].
      apply eqb_eq in E. subst k1. congruence.
    + destruct (JS.eqb k k1) eqn:E.
      * apply eqb_eq in E. subst k1. rewrite G, P.
        rewrite getProperty_setProperty. now rewrite eqb_refl.
      * destruct (JS.eqb k1 (js "__proto__")); [reflexivity|].
        rewrite getProperty_setProperty. now rewrite E.
Qed.

(** X18. [loadSettings] merges one level deep.  Of the properties the
    loaded settings object holds itself: a key that the stored data holds
    has the stored value, every other key has the value of
    [DEFAULT_SETTINGS]; the one exception is a stored key [__proto__],
    which [Object.assign] hands to the inherited setter and which gives
    the settings object no property. *)
Theorem loadSettings_falls_back_to_defaults (data : JSObject) (k : jsstring) :
  distinctKeys data = true ->
  getProperty k (loadSettings (Some data))
  = if JS.eqb k (js "__proto__") then None
    else match getProperty k data with
         | Some v => Some v
         | None => getProperty k (settingsObject DEFAULT_SETTINGS)
         end.
Proof.
  intros D. unfold loadSettings, Object_assign.
  cbn [fold_left]. unfold assignFrom at 1.
  rewrite (getProperty_assign k data D).
  destruct (JS.eqb k (js "__proto__")) eqn:P; [|reflexivity].
  apply eqb_eq in P. subst k. reflexivity.
Qed.

Lemma loadSettings_falls_back_to_defaults_witness :
  let data :=
    [(js "__proto__", VOther (js "{}")); (js "linkText", VString (js "source"))] in
  getProperty (js "linkText") (loadSettings (Some data))
  = if JS.eqb (js "linkText") (js "__proto__") then None
    else match getProperty (js "linkText") data with
         | Some v => Some v
         | None => getProperty (js "linkText") (settingsObject DEFAULT_SETTINGS)
         end.
Proof.
  intros data.
  apply (loadSettings_falls_back_to_defaults data (js "linkText")).
  reflexivity.
Defined.

(** X19. Saving and loading give the settings back: what [saveSettings]
    stores, [loadSettings] reads as the same five fields; and with nothing
    stored, the settings are [DEFAULT_SETTINGS]. *)
Theorem settings_survive_save_and_load (s : CarryForwardPluginSettings) :
  readSettings (loadSettings (saveSettings s)) = Some s
  /\ readSettings (loadSettings None) = Some DEFAULT_SETTINGS.
Proof.
  split; [destruct s|]; reflexivity.
Qed.

(* ================================================================= *)
(** ** The line breaks of the replacement text *)

Lemma countNL_app (a b : jsstring) : countNL (a ++ b) = countNL a + countNL b.
Proof. unfold countNL. now rewrite filter_app, length_app. Qed.

Lemma countNL_join (ls : list jsstring) :
  Forall (fun l => countNL l = 0) ls ->
  countNL (join [NL] ls) = length ls - 1.
Proof.
  induction ls as [|x ls IH]; intros F; [reflexivity|].
  inversion F as [|? ? Fx Fl]; subst.
  destruct ls as [|y ls]; [cbn [join length]; rewrite Fx; reflexivity|].
  change (join [NL] (x :: y :: ls)) with (x ++ [NL] ++ join [NL] (y :: ls)).
  rewrite !countNL_app, Fx, (IH Fl).
  cbn [length]. cbn. lia.
Qed.

Lemma countNL_token (id : jsstring) :
  forallb isTokenChar id = true -> countNL id = 0.
Proof.
  induction id as [|c id IH]; [reflexivity|].
  cbn [forallb]. intros H. apply andb_true_iff in H as [Hc Hid].
  unfold countNL in *. cbn [filter].
  destruct (N.eqb_spec NL c) as [<-|]; [discriminate Hc | now apply IH].
Qed.

Lemma countNL_rewrittenFrom (l l' : jsstring) :
  countNL l = 0 -> rewrittenFrom l l' -> countNL l' = 0.
Proof.
  intros Z [->|[id [_ [T [_ ->]]]]]; [exact Z|].
  destruct (trimEnd_split l) as [ws [E _]].
  rewrite E, countNL_app in Z.
  change (trimEnd l ++ SPACE :: CARET :: id)
    with (trimEnd l ++ [SPACE; CARET] ++ id).
  rewrite !countNL_app, (countNL_token id T).
  replace (countNL [SPACE; CARET]) with 0 by reflexivity. lia.
Qed.

(** X20. When no selected line holds a line break, the replacement text
    of the transaction has as many line breaks as the lines it replaces,
    one less than the number of selected lines: the command never changes
    the number of lines of the document. *)
Theorem transaction_keeps_line_count host editor file settings copy mode
    w updated copied w' :
  carryLines host editor file settings copy mode w = (Ok (updated, copied), w') ->
  Forall (fun n => countNL (getLine editor n) = 0) (selectedLines editor) ->
  countNL (join [NL] updated)
  = countNL (join [NL] (map (getLine editor) (selectedLines editor)))
  /\ countNL (join [NL] updated) = maxLine editor - minLine editor.
Proof.
  unfold carryLines. intros H Z.
  destruct (forLines_cases host editor file settings copy mode
              (selectedLines editor) [] [] w)
    as [[e [w1 [E _]]] | [ls [cs [w1 [E [_ [_ [F _]]]]]]]];
    rewrite E in H; [discriminate|].
  cbn [app] in H. injection H as <- _ _.
  assert (L : length ls = length (selectedLines editor))
    by (symmetry; apply (Forall2_length F)).
  assert (Zl : Forall (fun l => countNL l = 0) ls).
  { clear E L. induction F as [|n l' ns ls' [S _] F IH]; [constructor|].
    inversion Z as [|? ? Z1 Z2]; subst.
    constructor; [now apply (countNL_rewrittenFrom (getLine editor n)) | now apply IH]. }
  assert (Zs : Forall (fun l => countNL l = 0)
                 (map (getLine editor) (selectedLines editor)))
    by (apply Forall_map; exact Z).
  rewrite (countNL_join ls Zl), (countNL_join _ Zs), length_map, L.
  split; [reflexivity|].
  unfold selectedLines. rewrite length_seq. lia.
Qed.

Lemma transaction_keeps_line_count_witness :
  let editor := editorOf [js "alpha"; js ""; js "beta"] (pos 0 0) (pos 2 4) [] in
  let updated := [js "alpha ^abcde"; js ""; js "beta ^fghij"] in
  countNL (join [NL] updated)
  = countNL (join [NL] (map (getLine editor) (selectedLines editor)))
  /\ countNL (join [NL] updated) = maxLine editor - minLine editor.
Proof.
  intros editor updated.
  apply (transaction_keeps_line_count (sampleHost 0 []) editor (js "note")
           DEFAULT_SETTINGS SeparateLines LinkTextFromSettings world0 updated
           [js "alph (see [[note#^abcde]])"; js "";
            js "beta (see [[note#^fghij]])"]
           {| randomCalls := 10; clipboardReads := 0 |}).
  - vm_compute. reflexivity.
  - repeat constructor.
Defined.
